(** * tomodachi.helpers.crontab: the cron schedule evaluator

    A shallow embedding of [src/tomodachi/helpers/crontab.py] and the
    properties of [get_next_datetime] that its specification states.

    Conventions of the embedding.
    - Python [str] values are [string]s over Latin-1 code points; [int] is [Z].
    - An exception is a value of [exn]; a computation that may raise returns
      a [result].  [try ... except ValueError] is [catch_ValueError].
    - A Python [set] of integers is a [list Z]: the source only ever takes
      [min], tests membership, filters and enumerates its sets, all of which
      ignore order and repetition.
    - The [while True] loop of [calculate_date] is a fuelled [Fixpoint];
      the fuel is computed from the seed and shown to be enough. *)

From Stdlib Require Import ZArith List Bool Lia String Ascii.
Import ListNotations.
Local Open Scope string_scope.
Local Open Scope Z_scope.

Set Implicit Arguments.

(** ** Exceptions and results *)

Inductive exn : Type :=
| ValueError
| IndexError
| ZeroDivisionError
| CronError (msg : string).

Inductive result (A : Type) : Type :=
| Ok (a : A)
| Raise (e : exn).

Arguments Ok {A} a.
Arguments Raise {A} e.

Definition bind {A B : Type} (r : result A) (k : A -> result B) : result B :=
  match r with
  | Ok a => k a
  | Raise e => Raise e
  end.

Declare Scope py_scope.
Delimit Scope py_scope with py.
Notation "x <- c ;; k" := (bind c (fun x => k))
  (at level 61, c at next level, right associativity) : py_scope.
Notation "' p <- c ;; k" := (bind c (fun x => let p := x in k))
  (at level 61, p pattern, c at next level, right associativity) : py_scope.
Local Open Scope py_scope.

(** [try: body  except ValueError: handler]; any other exception passes. *)
Definition catch_ValueError {A : Type} (body : result A) (handler : result A)
  : result A :=
  match body with
  | Raise ValueError => handler
  | r => r
  end.

(** A conversion that can only fail with [ValueError]. *)
Definition or_ValueError {A : Type} (o : option A) : result A :=
  match o with
  | Some a => Ok a
  | None => Raise ValueError
  end.

(** ** Strings *)

Module Str.

Definition code (c : ascii) : Z := Z.of_N (N_of_ascii c).

(** [str.isspace] on one character (Latin-1 range). *)
Definition is_space (c : ascii) : bool :=
  let n := code c in
  ((9 <=? n) && (n <=? 13)) || ((28 <=? n) && (n <=? 32))
  || (n =? 133) || (n =? 160).

(** [str.lower] on one character (Latin-1 range). *)
Definition lower_char (c : ascii) : ascii :=
  let n := code c in
  if ((65 <=? n) && (n <=? 90))
     || ((192 <=? n) && (n <=? 222) && negb (n =? 215))
  then ascii_of_N (Z.to_N (n + 32))
  else c.

Fixpoint lower (s : string) : string :=
  match s with
  | EmptyString => EmptyString
  | String c s' => String (lower_char c) (lower s')
  end.

(** [c in s] for a one-character [c]. *)
Fixpoint contains (c : ascii) (s : string) : bool :=
  match s with
  | EmptyString => false
  | String d s' => Ascii.eqb c d || contains c s'
  end.

(** Cut [s] at every character satisfying [p]; the pieces may be empty
    and there is always at least one. *)
Fixpoint split_by (p : ascii -> bool) (s : string) : list string :=
  match s with
  | EmptyString => [EmptyString]
  | String c s' =>
      if p c then EmptyString :: split_by p s'
      else match split_by p s' with
           | w :: ws => String c w :: ws
           | [] => [String c EmptyString]
           end
  end.

(** [s.split(sep)] for a one-character separator. *)
Definition split (sep : ascii) (s : string) : list string :=
  split_by (Ascii.eqb sep) s.

Definition nonempty (s : string) : bool :=
  match s with
  | EmptyString => false
  | String _ _ => true
  end.

(** [s.split()]: cut at runs of whitespace, no empty pieces. *)
Definition split_ws (s : string) : list string :=
  filter nonempty (split_by is_space s).

Fixpoint lstrip (s : string) : string :=
  match s with
  | EmptyString => EmptyString
  | String c s' => if is_space c then lstrip s' else s
  end.

Fixpoint rstrip (s : string) : string :=
  match s with
  | EmptyString => EmptyString
  | String c s' =>
      match rstrip s' with
      | EmptyString => if is_space c then EmptyString else String c EmptyString
      | r => String c r
      end
  end.

Definition strip (s : string) : string := rstrip (lstrip s).

(** [s[1:]] *)
Definition tail (s : string) : string :=
  match s with
  | EmptyString => EmptyString
  | String _ s' => s'
  end.

(** [s[0]], which raises [IndexError] on the empty string. *)
Definition first (s : string) : result ascii :=
  match s with
  | EmptyString => Raise IndexError
  | String c _ => Ok c
  end.

(** [sep.join(l)] for a one-character separator. *)
Fixpoint join (sep : ascii) (l : list string) : string :=
  match l with
  | [] => EmptyString
  | [w] => w
  | w :: ws => String.append w (String sep (join sep ws))
  end.

Definition digit (c : ascii) : option Z :=
  let n := code c in
  if (48 <=? n) && (n <=? 57) then Some (n - 48) else None.

(** The digits that follow a first digit: each is a digit or an
    underscore followed by a digit. *)
Fixpoint int_digits (acc : Z) (s : string) : option Z :=
  match s with
  | EmptyString => Some acc
  | String c s' =>
      if Ascii.eqb c "_" then
        match s' with
        | EmptyString => None
        | String d s'' =>
            match digit d with
            | Some v => int_digits (10 * acc + v) s''
            | None => None
            end
        end
      else
        match digit c with
        | Some v => int_digits (10 * acc + v) s'
        | None => None
        end
  end.

Definition int_unsigned (s : string) : option Z :=
  match s with
  | EmptyString => None
  | String c s' =>
      match digit c with
      | Some v => int_digits v s'
      | None => None
      end
  end.

(** [int(s)] in base 10: surrounding whitespace, one optional sign,
    digits with single underscores between them.  [None] is
    [ValueError]. *)
Definition int (s : string) : option Z :=
  match strip s with
  | String "+" s' => int_unsigned s'
  | String "-" s' => option_map Z.opp (int_unsigned s')
  | s' => int_unsigned s'
  end.

End Str.

(** a, b = l   (unpacking a list of strings; [ValueError] unless two) *)
Definition unpack2 (l : list string) : result (string * string) :=
  match l with
  | [a; b] => Ok (a, b)
  | _ => Raise ValueError
  end.

(** ** The tables of the module *)

Inductive cron_type : Type := Minute | Hour | Day | Month | Isoweekday | Year.

Definition cron_type_eqb (a b : cron_type) : bool :=
  match a, b with
  | Minute, Minute | Hour, Hour | Day, Day | Month, Month
  | Isoweekday, Isoweekday | Year, Year => true
  | _, _ => false
  end.

Definition type_name (t : cron_type) : string :=
  match t with
  | Minute => "minute"
  | Hour => "hour"
  | Day => "day"
  | Month => "month"
  | Isoweekday => "isoweekday"
  | Year => "year"
  end.

(** One entry of [cron_attributes]: name, range, aliases. *)
Definition cron_attr : Type := cron_type * (Z * Z) * list (string * Z).

Definition cron_attributes : list cron_attr :=
  [ (Minute, (0, 59), []);
    (Hour, (0, 23), []);
    (Day, (1, 31), []);
    (Month, (1, 12),
      [("jan", 1); ("feb", 2); ("mar", 3); ("apr", 4); ("may", 5); ("jun", 6);
       ("jul", 7); ("aug", 8); ("sep", 9); ("oct", 10); ("nov", 11);
       ("dec", 12)]);
    (Isoweekday, (0, 6),
      [("mon", 1); ("tue", 2); ("wed", 3); ("thu", 4); ("fri", 5); ("sat", 6);
       ("sun", 0)]);
    (Year, (1970, 2099), []) ].

Definition crontab_aliases : list (string * string) :=
  [ ("@yearly", "0 0 1 1 *");
    ("@annually", "0 0 1 1 *");
    ("@monthly", "0 0 1 * *");
    ("@weekly", "0 0 * * 0");
    ("@daily", "0 0 * * *");
    ("@hourly", "0 * * * *");
    ("@minutely", "* * * * *") ].

(** [d.get(key)] on a dict written as its list of items. *)
Fixpoint dict_get {V : Type} (d : list (string * V)) (key : string) : option V :=
  match d with
  | [] => None
  | (k, v) :: d' => if String.eqb key k then Some v else dict_get d' key
  end.

(** [int(aliases.get(a, a))] *)
Definition int_alias (aliases : list (string * Z)) (a : string) : option Z :=
  match dict_get aliases a with
  | Some v => Some v
  | None => Str.int a
  end.

(** [[x for x in range(lo, hi + 1)]] *)
Definition range_incl (lo hi : Z) : list Z :=
  map (fun k => lo + Z.of_nat k) (seq 0 (Z.to_nat (hi + 1 - lo))).

(** [[x for x in xs if x % b == r]] where [r] is [a % b] or [0]: the first
    element already divides by [b], so a zero [b] raises unless [xs] is
    empty. *)
Definition filter_mod (xs : list Z) (b r : Z) : result (list Z) :=
  if b =? 0 then
    match xs with
    | [] => Ok []
    | _ :: _ => Raise ZeroDivisionError
    end
  else Ok (filter (fun x => x mod b =? r) xs).

(** ** Parsing one term of a field (the body of [for part in parts]) *)

(** Lines 40-49: the range [a-b], with an optional [l] in front of [a] and
    an optional [/step] behind [b]. *)
Definition part_range (aliases : list (string * Z)) (part : string)
    (possible_values : list Z) : result (list Z * bool) :=
  if Str.contains "-" part then
    ' (a, b) <- unpack2 (Str.split "-" part) ;;
    b <- (if Str.contains "/" b
          then ' (b', _) <- unpack2 (Str.split "/" b) ;; Ok b'
          else Ok b) ;;
    c <- Str.first a ;;
    let '(last, a) := if Ascii.eqb c "l" then (true, Str.tail a) else (false, a) in
    a <- or_ValueError (int_alias aliases a) ;;
    b <- or_ValueError (int_alias aliases b) ;;
    Ok (filter (fun x => (Z.min a b <=? x) && (x <=? Z.max a b)) possible_values,
        last)
  else Ok (possible_values, false).

(** Lines 51-64: the step [a/b]. *)
Definition part_step (aliases : list (string * Z)) (part : string)
    (possible_values : list Z) : result (list Z) :=
  if Str.contains "/" part then
    ' (a, b) <- unpack2 (Str.split "/" part) ;;
    catch_ValueError
      (a' <- or_ValueError (int_alias aliases a) ;;
       b' <- or_ValueError (Str.int b) ;;
       filter_mod possible_values b' (a' mod b'))
      (b' <- or_ValueError (Str.int b) ;;
       if String.eqb a "*" || String.eqb a "?" then
         filter_mod possible_values b' 0
       else
         ' (a0, _) <- unpack2 (Str.split "-" part) ;;
         a' <- or_ValueError (int_alias aliases a0) ;;
         filter_mod possible_values b' (a' mod b'))
  else Ok possible_values.

(** Lines 66-73: a single value, with an optional [l] in front; a term that
    is not an integer leaves the values as they are. *)
Definition part_single (aliases : list (string * Z)) (part : string)
    (possible_values : list Z) (last : bool) : result (list Z * bool) :=
  c <- Str.first part ;;
  let '(last, part) := if Ascii.eqb "l" c then (true, Str.tail part)
                       else (last, part) in
  match int_alias aliases part with
  | Some a => Ok (filter (fun x => x =? a) possible_values, last)
  | None => Ok (possible_values, last)
  end.

(** Lines 38-73: the admissible values of one term and its [last] flag. *)
Definition parse_part (attr : cron_attr) (part : string)
  : result (list Z * bool) :=
  let '(_, (lo, hi), aliases) := attr in
  let possible_values := range_incl lo hi in
  ' (possible_values, last) <- part_range aliases part possible_values ;;
  possible_values <- part_step aliases part possible_values ;;
  part_single aliases part possible_values last.

(** ** Parsing the whole notation (lines 26-90) *)

(** [min(l)], which raises [ValueError] on an empty sequence. *)
Definition py_min (l : list Z) : option Z :=
  match l with
  | [] => None
  | x :: xs => Some (fold_left Z.min xs x)
  end.

(** The values and the two [last] flags accumulated so far. *)
Definition parse_state : Type := list (list Z) * bool * bool.

(** Lines 37-83: the terms of one field, from left to right. *)
Fixpoint parse_parts (attr : cron_attr) (parts : list string)
    (available_values : list Z) (last_day last_weekday : bool)
  : result (list Z * bool * bool) :=
  match parts with
  | [] => Ok (available_values, last_day, last_weekday)
  | part :: parts' =>
      ' (possible_values, last) <- parse_part attr part ;;
      let t := fst (fst attr) in
      let last_day := if last && cron_type_eqb t Day then true else last_day in
      let last_weekday :=
        if last && cron_type_eqb t Isoweekday then true else last_weekday in
      match possible_values with
      | [] => Raise (CronError
                ("Invalid cron notation: invalid values for " ++ type_name t))
      | _ :: _ =>
          parse_parts attr parts' (available_values ++ possible_values)%list
            last_day last_weekday
      end
  end.

(** Lines 33-86: [for i, attr in enumerate(cron_attributes)], reading
    [cron_parts[i]]; [cron_parts] holds the fields from index [i] on. *)
Fixpoint parse_fields (attrs : list cron_attr) (cron_parts : list string)
    (st : parse_state) : result parse_state :=
  match attrs with
  | [] => Ok st
  | attr :: attrs' =>
      match cron_parts with
      | [] => Raise IndexError
      | field :: cron_parts' =>
          let '(values, last_day, last_weekday) := st in
          let parts := Str.split "," (Str.lower field) in
          ' (available_values, last_day, last_weekday) <-
              parse_parts attr parts [] last_day last_weekday ;;
          parse_fields attrs' cron_parts'
            ((values ++ [available_values])%list, last_day, last_weekday)
      end
  end.

(** Lines 26-28: alias substitution, splitting, padding with ["*"]. *)
Definition cron_parts_of (crontab_notation : string) : list string :=
  let crontab_notation :=
    match dict_get crontab_aliases crontab_notation with
    | Some s => s
    | None => crontab_notation
    end in
  let cron_parts := filter (fun c => Str.nonempty (Str.strip c))
                      (Str.split_ws crontab_notation) in
  (cron_parts
     ++ repeat "*" (List.length cron_attributes - List.length cron_parts)%nat)%list.

(** ** The calendar ([calendar.monthrange], [datetime]) *)

Definition is_leap (y : Z) : bool :=
  (y mod 4 =? 0) && (negb (y mod 100 =? 0) || (y mod 400 =? 0)).

(** [monthrange(y, m)[1]], for [m] in 1..12. *)
Definition monthrange (y m : Z) : Z :=
  nth (Z.to_nat m) [0; 31; 28; 31; 30; 31; 30; 31; 31; 30; 31; 30; 31] 0
  + (if (m =? 2) && is_leap y then 1 else 0).

Definition days_before_year (y : Z) : Z :=
  let y := y - 1 in y * 365 + y / 4 - y / 100 + y / 400.

Definition days_before_month (y m : Z) : Z :=
  nth (Z.to_nat m) [0; 0; 31; 59; 90; 120; 151; 181; 212; 243; 273; 304; 334] 0
  + (if (2 <? m) && is_leap y then 1 else 0).

(** [date(y, m, d).toordinal()]: 1 is 0001-01-01, a Monday. *)
Definition ymd2ord (y m d : Z) : Z :=
  days_before_year y + days_before_month y m + d.

(** [date(y, m, d).isoweekday()]: Monday is 1, Sunday is 7. *)
Definition isoweekday_ymd (y m d : Z) : Z :=
  let r := ymd2ord y m d mod 7 in if r =? 0 then 7 else r.

(** The zone attached to an aware datetime.  [UTC] is [pytz.UTC]; [Zone]
    is any other pytz zone with a fixed offset, for which [localize]
    attaches the zone itself.  A zone with daylight saving attaches an
    offset taken from the zone database, which is not part of the source;
    the civil fields it produces are the same. *)
Inductive timezone : Type :=
| UTC
| Zone (name : string).

Record datetime : Type := mk_datetime {
  year : Z; month : Z; day : Z;
  hour : Z; minute : Z; second : Z; microsecond : Z;
  tzinfo : option timezone
}.

Definition valid_date (y m d : Z) : bool :=
  (1 <=? y) && (y <=? 9999) && (1 <=? m) && (m <=? 12)
  && (1 <=? d) && (d <=? monthrange y m).

Definition valid_time (h mi s us : Z) : bool :=
  (0 <=? h) && (h <=? 23) && (0 <=? mi) && (mi <=? 59)
  && (0 <=? s) && (s <=? 59) && (0 <=? us) && (us <=? 999999).

(** The invariant of the class [datetime.datetime]. *)
Definition valid_datetime (d : datetime) : bool :=
  valid_date (year d) (month d) (day d)
  && valid_time (hour d) (minute d) (second d) (microsecond d).

(** [datetime.datetime(y, m, d, h, mi)], naive, seconds and microseconds 0;
    [None] is the [ValueError] of a field out of range. *)
Definition new_datetime (y m d h mi : Z) : option datetime :=
  if valid_date y m d && valid_time h mi 0 0
  then Some (mk_datetime y m d h mi 0 0 None)
  else None.

(** [tz.localize(d)]; [None] is the [ValueError] pytz raises when [d]
    already carries a zone. *)
Definition localize (tz : timezone) (d : datetime) : option datetime :=
  match tzinfo d with
  | Some _ => None
  | None => Some (mk_datetime (year d) (month d) (day d) (hour d) (minute d)
                    (second d) (microsecond d) (Some tz))
  end.

Definition isoweekday (d : datetime) : Z :=
  isoweekday_ymd (year d) (month d) (day d).

(** [getattr(d, name)] for the five field names the search reads. *)
Definition getattr (d : datetime) (t : cron_type) : Z :=
  match t with
  | Minute => minute d
  | Hour => hour d
  | Day => day d
  | Month => month d
  | Year => year d
  | Isoweekday => isoweekday d
  end.

(** Line 115: a new naive datetime from the year, month, day, hour and
    minute of [d], with the field named [t] replaced by [new_value]. *)
Definition rebuild (d : datetime) (t : cron_type) (new_value : Z)
  : option datetime :=
  let pick dv := if cron_type_eqb dv t then new_value else getattr d dv in
  new_datetime (pick Year) (pick Month) (pick Day) (pick Hour) (pick Minute).

(** Comparison of two datetimes of the same zone (or both naive): the
    fields, in order. *)
Fixpoint lex_ltb (a b : list Z) : bool :=
  match a, b with
  | x :: a', y :: b' => (x <? y) || ((x =? y) && lex_ltb a' b')
  | [], _ :: _ => true
  | _, [] => false
  end.

Definition fields_of (d : datetime) : list Z :=
  [year d; month d; day d; hour d; minute d; second d; microsecond d].

Definition dt_ltb (a b : datetime) : bool := lex_ltb (fields_of a) (fields_of b).

(** [min(l)] on a non-empty list of datetimes: the first least one. *)
Definition min_datetime (d : datetime) (l : list datetime) : datetime :=
  fold_left (fun m x => if dt_ltb x m then x else m) l d.

(** Lines 88-90: the day-of-month feasibility check. *)
Definition check_days (st : parse_state) : result parse_state :=
  let '(values, _, _) := st in
  min_day <- or_ValueError (py_min (nth 2 values [])) ;;
  if 28 <=? min_day then
    if existsb (fun y => existsb (fun m => min_day <=? monthrange y m)
                           (nth 3 values []))
         (nth 5 values [])
    then Ok st
    else Raise (CronError "Invalid cron notation: days out of scope")
  else Ok st.

(** Lines 26-90: everything [get_next_datetime] does before the search. *)
Definition parse_crontab (crontab_notation : string) : result parse_state :=
  st <- parse_fields cron_attributes (cron_parts_of crontab_notation)
          ([], false, false) ;;
  check_days st.

(** ** The carry-search (lines 92-149) *)

Inductive carry : Type :=
| Carried (d : datetime)   (* a candidate was built *)
| Abandoned                (* [next_date = None]: retry from the next day *)
| Exhausted.               (* [return None] inside the field loop *)

Section Search.

Variable values : list (list Z).
Variables last_day last_weekday : bool.

(** Lines 103-118: one pass over [cron_attributes], skipping the weekday;
    [i] is the index of the head of [attrs]. *)
Fixpoint carry_fields (tz : timezone) (i : nat) (attrs : list cron_attr)
    (next_date : datetime) : carry :=
  match attrs with
  | [] => Carried next_date
  | attr :: attrs' =>
      let t := fst (fst attr) in
      if cron_type_eqb t Isoweekday then carry_fields tz (S i) attrs' next_date
      else
        let value := getattr next_date t in
        match py_min (filter (fun v => value <=? v) (nth i values [])) with
        | None => if cron_type_eqb t Year then Exhausted else Abandoned
        | Some new_value =>
            match rebuild next_date t new_value with
            | None => Abandoned
            | Some d =>
                match localize tz d with
                | None => Abandoned
                | Some d' => carry_fields tz (S i) attrs' d'
                end
            end
        end
  end.

(** Lines 124-128: no later day of the month falls on the same weekday. *)
Definition is_last_weekday (d : datetime) : bool :=
  negb (existsb (fun i => isoweekday_ymd (year d) (month d) i =? isoweekday d)
          (range_incl (day d + 1) (monthrange (year d) (month d)))).

(** Lines 120-128: the three filters on a built candidate. *)
Definition passes_filters (d : datetime) : bool :=
  existsb (Z.eqb (isoweekday d mod 7)) (nth 4 values [])
  && (negb last_day || (day d =? monthrange (year d) (month d)))
  && (negb last_weekday || is_last_weekday d).

(** Lines 102-128: one iteration of the loop up to the retry decision. *)
Definition attempt (tz : timezone) (next_date : datetime) : carry :=
  match carry_fields tz 0 cron_attributes next_date with
  | Carried d => if passes_filters d then Carried d else Abandoned
  | c => c
  end.

Definition localized (tz : timezone) (d : option datetime) : option datetime :=
  match d with
  | Some d => localize tz d
  | None => None
  end.

(** Lines 130-140: midnight of the day after [original_date]; the
    innermost constructor is outside every [try]. *)
Definition next_day (tz : timezone) (original_date : datetime)
  : result datetime :=
  let '(y, m, d) := (year original_date, month original_date,
                     day original_date) in
  match localized tz (new_datetime y m (d + 1) 0 0) with
  | Some r => Ok r
  | None =>
      match localized tz (new_datetime y (m + 1) 1 0 0) with
      | Some r => Ok r
      | None => or_ValueError (localized tz (new_datetime (y + 1) 1 1 0 0))
      end
  end.

(** Lines 101-145: the loop; [None] means the fuel ran out before the
    loop left. *)
Fixpoint retry_loop (fuel : nat) (tz : timezone) (next_date : datetime)
  : option (result (option datetime)) :=
  match fuel with
  | O => None
  | S fuel' =>
      match attempt tz next_date with
      | Exhausted => Some (Ok None)
      | Carried d => Some (Ok (Some d))
      | Abandoned =>
          match next_day tz next_date with
          | Raise e => Some (Raise e)
          | Ok d' =>
              if 2100 <=? year d' then Some (Ok None)
              else retry_loop fuel' tz d'
          end
      end
  end.

(** More iterations than the loop can make from [d]: one per day up to
    the year 2100, months counted as 31 days. *)
Definition fuel_of (d : datetime) : nat :=
  S (Z.to_nat ((2101 - year d) * 372)).

(** Line 148: the result without its zone. *)
Definition naive_copy (d : datetime) : datetime :=
  mk_datetime (year d) (month d) (day d) (hour d) (minute d) (second d)
    (microsecond d) None.

Definition calculate_date (next_date : option datetime)
  : option (result (option datetime)) :=
  match next_date with
  | None => Some (Ok None)
  | Some d =>
      let tz := match tzinfo d with Some z => z | None => UTC end in
      let naive_date := match tzinfo d with Some _ => false | None => true end in
      match retry_loop (fuel_of d) tz d with
      | Some (Ok (Some r)) =>
          Some (Ok (Some (if naive_date then naive_copy r else r)))
      | r => r
      end
  end.

(** Line 152: [calculate_date(tz.localize(d) if tz else d, ...)] for each
    seed in turn. *)
Fixpoint calculate_all (tz : option timezone) (ds : list datetime)
  : option (result (list (option datetime))) :=
  match ds with
  | [] => Some (Ok [])
  | d :: ds' =>
      match (match tz with Some z => localize z d | None => Some d end) with
      | None => Some (Raise ValueError)
      | Some d0 =>
          match calculate_date (Some d0) with
          | None => None
          | Some (Raise e) => Some (Raise e)
          | Some (Ok r) =>
              match calculate_all tz ds' with
              | Some (Ok rs) => Some (Ok (r :: rs))
              | other => other
              end
          end
      end
  end.

End Search.

(** [[x for x in l if x]] on a list of optional values. *)
Fixpoint somes {A : Type} (l : list (option A)) : list A :=
  match l with
  | [] => []
  | Some a :: l' => a :: somes l'
  | None :: l' => somes l'
  end.

(** [datetime.datetime(...) if cond else None] *)
Definition seed_if (cond : bool) (d : option datetime)
  : result (option datetime) :=
  if cond then x <- or_ValueError d ;; Ok (Some x) else Ok None.

(** Lines 152-159: the list of seeds, built before any of them is used. *)
Definition seeds (now_date : datetime) : result (list (option datetime)) :=
  let '(y, m, d) := (year now_date, month now_date, day now_date) in
  let '(h, mi) := (hour now_date, minute now_date) in
  let s0 := if second now_date =? 0 then Some now_date else None in
  s1 <- seed_if (mi <? 60 - 1) (new_datetime y m d h (mi + 1)) ;;
  s2 <- seed_if (h <? 24 - 1) (new_datetime y m d (h + 1) 0) ;;
  s3 <- seed_if (d <? monthrange y m - 1) (new_datetime y m (d + 1) 0 0) ;;
  s4 <- seed_if (m <? 12 - 1) (new_datetime y (m + 1) 1 0 0) ;;
  s5 <- or_ValueError (new_datetime (y + 1) 1 1 0 0) ;;
  Ok [s0; s1; s2; s3; s4; Some s5].

(** Lines 160-162. *)
Definition earliest (calculated_dates : list (option datetime))
  : option datetime :=
  match somes calculated_dates with
  | [] => None
  | d :: l => Some (min_datetime d l)
  end.

(** [get_next_datetime(crontab_notation, now_date)].  The outer [option]
    is [None] only if a loop ran out of fuel. *)
Definition get_next_datetime (crontab_notation : string) (now_date : datetime)
  : option (result (option datetime)) :=
  match parse_crontab crontab_notation with
  | Raise e => Some (Raise e)
  | Ok (values, last_day, last_weekday) =>
      match seeds now_date with
      | Raise e => Some (Raise e)
      | Ok ds =>
          match calculate_all values last_day last_weekday (tzinfo now_date)
                  (somes ds) with
          | None => None
          | Some (Raise e) => Some (Raise e)
          | Some (Ok calculated_dates) => Some (Ok (earliest calculated_dates))
          end
      end
  end.

(** A naive datetime written out. *)
Definition naive (y m d h mi s us : Z) : datetime :=
  mk_datetime y m d h mi s us None.

(** ** Notions used by the statements *)

Definition mem (x : Z) (l : list Z) : bool := existsb (Z.eqb x) l.

(** The schedule holds at [d]: each of the five fields of [d] is in its
    set, and [d] passes the weekday and [last] filters. *)
Definition satisfies (values : list (list Z)) (last_day last_weekday : bool)
    (d : datetime) : bool :=
  mem (minute d) (nth 0 values []) && mem (hour d) (nth 1 values [])
  && mem (day d) (nth 2 values []) && mem (month d) (nth 3 values [])
  && mem (year d) (nth 5 values [])
  && passes_filters values last_day last_weekday d.

(** An instant on a whole minute. *)
Definition on_minute (d : datetime) : bool :=
  (second d =? 0) && (microsecond d =? 0).



(** Days from [d] to the end of 2099 if every month had 31 days: the
    quantity the retry loop decreases. *)
Definition days_left (d : datetime) : Z :=
  (2100 - year d) * 372 + (12 - month d) * 31 + (31 - day d).

(** [next_day] cannot raise at [d]: one of its three dates exists. *)
Definition has_next_day (d : datetime) : bool :=
  valid_date (year d) (month d) (day d + 1)
  || valid_date (year d) (month d + 1) 1
  || valid_date (year d + 1) 1 1.

(** The term starts with the letter l. *)
Definition starts_with_l (part : string) : bool :=
  match part with
  | String c _ => Ascii.eqb c "l"
  | EmptyString => false
  end.

(** Some term of the comma-separated field starts with the letter l. *)
Definition has_last_term (field : string) : bool :=
  existsb starts_with_l (Str.split "," (Str.lower field)).

Definition days_out_of_scope : exn :=
  CronError "Invalid cron notation: days out of scope".

(** [d.toordinal()]: the day number of the date of [d]. *)
Definition toordinal (d : datetime) : Z :=
  ymd2ord (year d) (month d) (day d).

(** The year, month, day, hour and minute of [d] as one number that
    orders valid datetimes the way their first five fields do. *)
Definition minute_key (d : datetime) : Z :=
  (((year d * 16 + month d) * 32 + day d) * 24 + hour d) * 60 + minute d.

(** No character of [s] satisfies [p]. *)
Fixpoint none_of (p : ascii -> bool) (s : string) : bool :=
  match s with
  | EmptyString => true
  | String c s' => negb (p c) && none_of p s'
  end.

(** A field as [str.split()] produces them: not empty, no whitespace. *)
Definition is_word (w : string) : bool :=
  Str.nonempty w && none_of Str.is_space w.

(** The values parsed for one field: at least one, all in the range of
    the field. *)
Definition field_ok (attr : cron_attr) (vs : list Z) : Prop :=
  vs <> []
  /\ forall v, In v vs -> fst (snd (fst attr)) <= v <= snd (snd (fst attr)).

(** * Properties *)

Unset Implicit Arguments.

(** ** Concrete schedules *)

(** C8: for the schedule "0 0 29 2 *", the next occurrence after the naive
    instant 2023-01-01T00:00:00 is 2024-02-29T00:00, and after
    2024-03-01T00:00:00 it is 2028-02-29T00:00: the years without a
    29th of February are skipped. *)
Theorem leap_day_schedule :
  get_next_datetime "0 0 29 2 *" (naive 2023 1 1 0 0 0 0)
    = Some (Ok (Some (naive 2024 2 29 0 0 0 0)))
  /\ get_next_datetime "0 0 29 2 *" (naive 2024 3 1 0 0 0 0)
    = Some (Ok (Some (naive 2028 2 29 0 0 0 0))).
Proof. split; vm_compute; reflexivity. Qed.

(** C1 (the code departs from it): for "* * * * *" and the naive reference
    2021-01-30T23:59:30 the function returns 2021-02-01T00:00, although
    2021-01-31T00:00 is on a whole minute, satisfies the schedule, and lies
    strictly between the reference and the returned instant. *)
Theorem next_is_not_earliest :
  let now := naive 2021 1 30 23 59 30 0 in
  let t := naive 2021 2 1 0 0 0 0 in
  let earlier := naive 2021 1 31 0 0 0 0 in
  get_next_datetime "* * * * *" now = Some (Ok (Some t))
  /\ seeds now = Ok [None; None; None; None; Some t; Some (naive 2022 1 1 0 0 0 0)]
  /\ (exists values last_day last_weekday,
        parse_crontab "* * * * *" = Ok (values, last_day, last_weekday)
        /\ satisfies values last_day last_weekday earlier = true)
  /\ valid_datetime earlier = true /\ on_minute earlier = true
  /\ dt_ltb now earlier = true /\ dt_ltb earlier t = true.
Proof.
  cbv zeta. split; [vm_compute; reflexivity|].
  split; [vm_compute; reflexivity|].
  split.
  - eexists _, _, _. split; [vm_compute; reflexivity|].
    vm_compute; reflexivity.
  - repeat split; vm_compute; reflexivity.
Qed.

(** The same defect in November: the seed of the following month is
    missing, and from 2021-11-30T23:59:30 the whole of December is
    skipped. *)
Lemma next_skips_december :
  seeds (naive 2021 11 30 23 59 30 0)
  = Ok [None; None; None; None; None; Some (naive 2022 1 1 0 0 0 0)]
  /\ get_next_datetime "* * * * *" (naive 2021 11 30 23 59 30 0)
     = Some (Ok (Some (naive 2022 1 1 0 0 0 0))).
Proof. split; vm_compute; reflexivity. Qed.

(** C2 (the code departs from it): for "* * * * *" and the naive reference
    2020-01-01T00:00:00.000001, whose seconds are 0 and microseconds are
    not, the function returns 2020-01-01T00:00:00, which is before the
    reference. *)
Theorem next_before_reference :
  let now := naive 2020 1 1 0 0 0 1 in
  let t := naive 2020 1 1 0 0 0 0 in
  valid_datetime now = true
  /\ get_next_datetime "* * * * *" now = Some (Ok (Some t))
  /\ dt_ltb t now = true.
Proof. cbv zeta. repeat split; vm_compute; reflexivity. Qed.

(** ** Splitting and joining *)

Section Splitting.

Variable p : ascii -> bool.

Lemma split_by_word (w : string) :
  none_of p w = true -> Str.split_by p w = [w].
Proof.
  induction w as [|c w IH]; simpl; [reflexivity|].
  intros H. apply andb_true_iff in H as [Hc Hw].
  apply negb_true_iff in Hc. rewrite Hc, (IH Hw). reflexivity.
Qed.

Lemma split_by_app_sep (w : string) (c : ascii) (rest : string) :
  none_of p w = true -> p c = true ->
  Str.split_by p (w ++ String c rest) = w :: Str.split_by p rest.
Proof.
  intros Hw Hc. induction w as [|a w IH]; simpl.
  - rewrite Hc. reflexivity.
  - simpl in Hw. apply andb_true_iff in Hw as [Ha Hw].
    apply negb_true_iff in Ha. rewrite Ha, (IH Hw). reflexivity.
Qed.

Lemma split_by_pieces (s : string) :
  Forall (fun w => none_of p w = true) (Str.split_by p s).
Proof.
  induction s as [|c s IH]; simpl.
  - repeat constructor.
  - destruct (p c) eqn:Hc.
    + constructor; [reflexivity | exact IH].
    + destruct (Str.split_by p s) as [|w ws].
      * repeat constructor. simpl. rewrite Hc. reflexivity.
      * inversion IH; subst. constructor; [|assumption].
        simpl. rewrite Hc. simpl. assumption.
Qed.

End Splitting.

Lemma Forall_firstn {A : Type} (P : A -> Prop) (n : nat) (l : list A) :
  Forall P l -> Forall P (firstn n l).
Proof.
  intros H. revert n. induction H; intros [|n]; simpl; constructor; auto.
Qed.

Lemma split_ws_words (s : string) :
  Forall (fun w => is_word w = true) (Str.split_ws s).
Proof.
  unfold Str.split_ws.
  pose proof (split_by_pieces Str.is_space s) as H.
  induction H as [|w ws Hw _ IH]; simpl; [constructor|].
  destruct (Str.nonempty w) eqn:Hn; [|exact IH].
  constructor; [|exact IH]. unfold is_word. rewrite Hn, Hw. reflexivity.
Qed.

Lemma split_ws_join (l : list string) :
  Forall (fun w => is_word w = true) l ->
  Str.split_ws (Str.join " " l) = l.
Proof.
  induction 1 as [|w l Hw Hl IH]; [reflexivity|].
  apply andb_true_iff in Hw as [Hn Hs].
  destruct l as [|w2 l].
  - simpl. unfold Str.split_ws. rewrite (split_by_word _ _ Hs).
    simpl. rewrite Hn. reflexivity.
  - change (Str.join " " (w :: w2 :: l))
      with (w ++ String " " (Str.join " " (w2 :: l)))%string.
    unfold Str.split_ws.
    rewrite (split_by_app_sep Str.is_space w " " _ Hs eq_refl).
    simpl filter. rewrite Hn. f_equal. exact IH.
Qed.

Lemma strip_word (w : string) : is_word w = true -> Str.strip w = w.
Proof.
  intros H. apply andb_true_iff in H as [_ Hs].
  unfold Str.strip.
  assert (Hl : Str.lstrip w = w).
  { destruct w as [|c w]; [reflexivity|]. simpl in *.
    apply andb_true_iff in Hs as [Hc _]. apply negb_true_iff in Hc.
    rewrite Hc. reflexivity. }
  rewrite Hl. clear Hl.
  induction w as [|c w IH]; [reflexivity|].
  simpl in *. apply andb_true_iff in Hs as [Hc Hw].
  apply negb_true_iff in Hc. rewrite (IH Hw), Hc.
  destruct w; reflexivity.
Qed.

Lemma filter_strip_words (l : list string) :
  Forall (fun w => is_word w = true) l ->
  filter (fun c => Str.nonempty (Str.strip c)) l = l.
Proof.
  induction 1 as [|w l Hw _ IH]; [reflexivity|].
  simpl. rewrite (strip_word _ Hw), IH.
  apply andb_true_iff in Hw as [-> _]. reflexivity.
Qed.

(** A whole-notation alias is one word. *)
Lemma crontab_alias_one_word (s v : string) :
  dict_get crontab_aliases s = Some v -> List.length (Str.split_ws s) = 1%nat.
Proof.
  unfold crontab_aliases. simpl.
  repeat match goal with
         | |- context [String.eqb s ?k] =>
             destruct (String.eqb_spec s k) as [->|_]; [reflexivity|]
         end.
  discriminate.
Qed.

Lemma parse_fields_firstn (attrs : list cron_attr) :
  forall (cron_parts : list string) (st : parse_state),
    parse_fields attrs cron_parts st
    = parse_fields attrs (firstn (List.length attrs) cron_parts) st.
Proof.
  induction attrs as [|attr attrs IH]; intros cron_parts st; [reflexivity|].
  destruct cron_parts as [|field cron_parts]; [reflexivity|].
  simpl. destruct st as [[values ld] lw].
  destruct (parse_parts attr _ [] ld lw) as [[[av ld'] lw']|e]; simpl;
    [apply IH | reflexivity].
Qed.

(** The fields the parser reads from a notation of six or more fields. *)
Lemma cron_parts_of_long (s : string) :
  (6 <= List.length (Str.split_ws s))%nat ->
  firstn 6 (cron_parts_of s) = firstn 6 (Str.split_ws s).
Proof.
  intros Hlen. unfold cron_parts_of.
  destruct (dict_get crontab_aliases s) as [v|] eqn:Ha.
  - apply crontab_alias_one_word in Ha. lia.
  - rewrite (filter_strip_words _ (split_ws_words s)).
    change (List.length cron_attributes) with 6%nat.
    replace (6 - List.length (Str.split_ws s))%nat with 0%nat by lia.
    simpl repeat. rewrite app_nil_r. reflexivity.
Qed.

(** C10: a notation of more than six whitespace-separated fields is parsed
    like its first six fields joined by single spaces: for every reference
    the two calls give the same outcome (the same instant, the same absence
    of one, or the same exception), so the extra fields neither raise nor
    change the result. *)
Theorem extra_fields_ignored (crontab_notation : string) (now_date : datetime) :
  (6 < List.length (Str.split_ws crontab_notation))%nat ->
  parse_crontab crontab_notation
    = parse_crontab (Str.join " " (firstn 6 (Str.split_ws crontab_notation)))
  /\ get_next_datetime crontab_notation now_date
    = get_next_datetime
        (Str.join " " (firstn 6 (Str.split_ws crontab_notation))) now_date.
Proof.
  intros Hlen.
  set (six := Str.join " " (firstn 6 (Str.split_ws crontab_notation))).
  assert (Hsix : Str.split_ws six = firstn 6 (Str.split_ws crontab_notation)).
  { apply split_ws_join, Forall_firstn, split_ws_words. }
  assert (Hparse : parse_crontab crontab_notation = parse_crontab six).
  { unfold parse_crontab.
    rewrite (parse_fields_firstn cron_attributes (cron_parts_of crontab_notation)).
    rewrite (parse_fields_firstn cron_attributes (cron_parts_of six)).
    change (List.length cron_attributes) with 6%nat.
    rewrite (cron_parts_of_long crontab_notation) by lia.
    rewrite (cron_parts_of_long six)
      by (rewrite Hsix, length_firstn; lia).
    rewrite Hsix, firstn_firstn. reflexivity. }
  split; [exact Hparse|].
  unfold get_next_datetime. rewrite Hparse. reflexivity.
Qed.

(** Three extra fields after the year field change nothing. *)
Lemma extra_fields_ignored_witness :
  get_next_datetime "0 0 * * * * 7 8 9" (naive 2020 1 1 0 0 0 0)
  = get_next_datetime
      (Str.join " " (firstn 6 (Str.split_ws "0 0 * * * * 7 8 9")))
      (naive 2020 1 1 0 0 0 0).
Proof.
  apply (extra_fields_ignored "0 0 * * * * 7 8 9" (naive 2020 1 1 0 0 0 0)).
  vm_compute. lia.
Defined.

(** ** Errors raised while parsing *)

(** C4: when the six fields parse, the least admissible day is 28 or more,
    and no admissible year and month give a month that long, parsing raises
    and so does [get_next_datetime], whatever the reference: no seed is
    built and no search runs.  The notation "0 0 31 feb *" is such a
    case. *)
Theorem infeasible_day_raises :
  (forall crontab_notation values last_day last_weekday min_day now_date,
      parse_fields cron_attributes (cron_parts_of crontab_notation)
        ([], false, false) = Ok (values, last_day, last_weekday) ->
      py_min (nth 2 values []) = Some min_day ->
      28 <= min_day ->
      (forall y m, In y (nth 5 values []) -> In m (nth 3 values []) ->
                   monthrange y m < min_day) ->
      parse_crontab crontab_notation = Raise days_out_of_scope
      /\ get_next_datetime crontab_notation now_date
         = Some (Raise days_out_of_scope))
  /\ (forall now_date,
        get_next_datetime "0 0 31 feb *" now_date
        = Some (Raise days_out_of_scope)).
Proof.
  split.
  - intros c values ld lw min_day now Hparse Hmin Hge Hnone.
    assert (H : parse_crontab c = Raise days_out_of_scope).
    { unfold parse_crontab. rewrite Hparse. simpl. rewrite Hmin. simpl.
      destruct (28 <=? min_day) eqn:E; [|lia].
      destruct (existsb _ (nth 5 values [])) eqn:Ex; [|reflexivity].
      apply existsb_exists in Ex as (y & Hy & Ex).
      apply existsb_exists in Ex as (m & Hm & Hlen).
      specialize (Hnone y m Hy Hm). lia. }
    split; [exact H|]. unfold get_next_datetime. rewrite H. reflexivity.
  - intros now. unfold get_next_datetime.
    replace (parse_crontab "0 0 31 feb *") with (@Raise parse_state days_out_of_scope)
      by (vm_compute; reflexivity).
    reflexivity.
Qed.

(** Days 30 and 31 of February, in two leap years. *)
Lemma infeasible_day_raises_witness :
  get_next_datetime "0 0 30,31 2 * 2020,2024" (naive 2021 6 1 12 0 0 0)
  = Some (Raise days_out_of_scope).
Proof.
  refine (proj2 (proj1 infeasible_day_raises "0 0 30,31 2 * 2020,2024"
                   [[0]; [0]; [30; 31]; [2]; [0; 1; 2; 3; 4; 5; 6]; [2020; 2024]]
                   false false 30 (naive 2021 6 1 12 0 0 0) _ _ _ _)).
  - vm_compute. reflexivity.
  - reflexivity.
  - lia.
  - intros y m [<-|[<-|[]]] [<-|[]]; vm_compute; reflexivity.
Defined.

Lemma contains_none_of (c : ascii) (s : string) :
  Str.contains c s = false -> none_of (Ascii.eqb c) s = true.
Proof.
  induction s as [|d s IH]; simpl; [reflexivity|].
  intros H. apply orb_false_iff in H as [Hd Hs].
  rewrite Hd, (IH Hs). reflexivity.
Qed.









(** Terms that raise or come out empty: a range of three pieces, a range
    with a missing or non-numeric end, a step that is not a number, a step
    of zero, an empty term, a value outside the range. *)
Lemma rejected_terms :
  parse_part (Day, (1, 31), []) "1-2-3" = Raise ValueError
  /\ parse_part (Day, (1, 31), []) "5-" = Raise ValueError
  /\ parse_part (Day, (1, 31), []) "-5" = Raise IndexError
  /\ parse_part (Day, (1, 31), []) "a-b" = Raise ValueError
  /\ parse_part (Day, (1, 31), []) "*/x" = Raise ValueError
  /\ parse_part (Day, (1, 31), []) "5/x" = Raise ValueError
  /\ parse_part (Day, (1, 31), []) "*/0" = Raise ZeroDivisionError
  /\ parse_part (Day, (1, 31), []) "" = Raise IndexError
  /\ parse_part (Day, (1, 31), []) "32" = Ok ([], false)
  /\ parse_part (Day, (1, 31), []) "*/40" = Ok ([], false).
Proof. repeat split; vm_compute; reflexivity. Qed.


(** ** Calendar arithmetic *)

Ltac zbool :=
  repeat match goal with
    | H : _ && _ = true |- _ => apply andb_true_iff in H; destruct H
    | H : (_ <=? _) = true |- _ => apply Z.leb_le in H
    | H : (_ <? _) = true |- _ => apply Z.ltb_lt in H
    | H : (_ =? _) = true |- _ => apply Z.eqb_eq in H
    | H : (_ <=? _) = false |- _ => apply Z.leb_gt in H
    | H : (_ <? _) = false |- _ => apply Z.ltb_ge in H
    | H : (_ =? _) = false |- _ => apply Z.eqb_neq in H
    end.

Lemma valid_date_iff (y m d : Z) :
  valid_date y m d = true
  <-> 1 <= y <= 9999 /\ 1 <= m <= 12 /\ 1 <= d <= monthrange y m.
Proof.
  unfold valid_date. split.
  - intros H. zbool. lia.
  - intros (Hy & Hm & Hd).
    repeat (apply andb_true_iff; split); apply Z.leb_le; lia.
Qed.

Lemma month_cases (m : Z) :
  1 <= m <= 12 ->
  m = 1 \/ m = 2 \/ m = 3 \/ m = 4 \/ m = 5 \/ m = 6 \/ m = 7 \/ m = 8
  \/ m = 9 \/ m = 10 \/ m = 11 \/ m = 12.
Proof. lia. Qed.

Ltac each_month m H :=
  destruct (month_cases m H)
    as [->|[->|[->|[->|[->|[->|[->|[->|[->|[->|[->| ->]]]]]]]]]]].

Lemma monthrange_bounds (y m : Z) : 1 <= m <= 12 -> 28 <= monthrange y m <= 31.
Proof.
  intros H. unfold monthrange.
  each_month m H; simpl; try lia; destruct (is_leap y); lia.
Qed.

Lemma days_before_next_month (y m : Z) :
  1 <= m < 12 ->
  days_before_month y (m + 1) = days_before_month y m + monthrange y m.
Proof.
  intros H. assert (H' : 1 <= m <= 12) by lia.
  unfold days_before_month, monthrange.
  each_month m H'; simpl; try lia; destruct (is_leap y); lia.
Qed.

Lemma days_before_next_year (y : Z) :
  days_before_year (y + 1)
  = days_before_year y + 365 + (if is_leap y then 1 else 0).
Proof.
  unfold days_before_year, is_leap.
  replace (y + 1 - 1) with y by lia.
  destruct (y mod 4 =? 0) eqn:E4; destruct (y mod 100 =? 0) eqn:E100;
    destruct (y mod 400 =? 0) eqn:E400; simpl; zbool;
    Z.div_mod_to_equations; lia.
Qed.

Lemma new_datetime_inv (y m d h mi : Z) (x : datetime) :
  new_datetime y m d h mi = Some x ->
  x = mk_datetime y m d h mi 0 0 None
  /\ valid_date y m d = true /\ valid_time h mi 0 0 = true.
Proof.
  unfold new_datetime.
  destruct (valid_date y m d) eqn:Ed; [|discriminate].
  destruct (valid_time h mi 0 0) eqn:Et; [|discriminate].
  simpl. intros H. injection H as <-. auto.
Qed.

Lemma localized_inv (tz : timezone) (y m d h mi : Z) (x : datetime) :
  localized tz (new_datetime y m d h mi) = Some x ->
  x = mk_datetime y m d h mi 0 0 (Some tz)
  /\ valid_date y m d = true /\ valid_time h mi 0 0 = true.
Proof.
  unfold localized.
  destruct (new_datetime y m d h mi) as [n|] eqn:E; [|discriminate].
  apply new_datetime_inv in E as (-> & Hd & Ht).
  unfold localize. simpl. intros H. injection H as <-. auto.
Qed.

Lemma localized_valid (tz : timezone) (y m d : Z) :
  valid_date y m d = true ->
  localized tz (new_datetime y m d 0 0)
  = Some (mk_datetime y m d 0 0 0 0 (Some tz)).
Proof.
  intros H. unfold localized, new_datetime. rewrite H. reflexivity.
Qed.

Lemma localized_invalid (tz : timezone) (y m d : Z) :
  valid_date y m d = false -> localized tz (new_datetime y m d 0 0) = None.
Proof.
  intros H. unfold localized, new_datetime. rewrite H. reflexivity.
Qed.

(** What [next_day] returns: midnight of one of three dates, the first
    that exists. *)
Lemma next_day_inv (tz : timezone) (d d' : datetime) :
  next_day tz d = Ok d' ->
  exists y m n,
    d' = mk_datetime y m n 0 0 0 0 (Some tz)
    /\ valid_date y m n = true
    /\ ((y = year d /\ m = month d /\ n = day d + 1)
        \/ (y = year d /\ m = month d + 1 /\ n = 1
            /\ valid_date (year d) (month d) (day d + 1) = false)
        \/ (y = year d + 1 /\ m = 1 /\ n = 1
            /\ valid_date (year d) (month d) (day d + 1) = false
            /\ valid_date (year d) (month d + 1) 1 = false)).
Proof.
  unfold next_day.
  destruct (valid_date (year d) (month d) (day d + 1)) eqn:E1.
  { rewrite (localized_valid tz _ _ _ E1). intros H. injection H as <-.
    exists (year d), (month d), (day d + 1).
    split; [reflexivity|]. split; [exact E1|]. left. auto. }
  rewrite (localized_invalid tz _ _ _ E1).
  destruct (valid_date (year d) (month d + 1) 1) eqn:E2.
  { rewrite (localized_valid tz _ _ _ E2). intros H. injection H as <-.
    exists (year d), (month d + 1), 1.
    split; [reflexivity|]. split; [exact E2|]. right; left. auto. }
  rewrite (localized_invalid tz _ _ _ E2).
  destruct (valid_date (year d + 1) 1 1) eqn:E3.
  { rewrite (localized_valid tz _ _ _ E3). intros H. injection H as <-.
    exists (year d + 1), 1, 1.
    split; [reflexivity|]. split; [exact E3|]. right; right. auto. }
  rewrite (localized_invalid tz _ _ _ E3). discriminate.
Qed.

Lemma next_day_exists (tz : timezone) (d : datetime) :
  has_next_day d = true -> exists d', next_day tz d = Ok d'.
Proof.
  unfold has_next_day, next_day. intros H.
  destruct (valid_date (year d) (month d) (day d + 1)) eqn:E1.
  { rewrite (localized_valid tz _ _ _ E1). eauto. }
  rewrite (localized_invalid tz _ _ _ E1).
  destruct (valid_date (year d) (month d + 1) 1) eqn:E2.
  { rewrite (localized_valid tz _ _ _ E2). eauto. }
  rewrite (localized_invalid tz _ _ _ E2).
  simpl in H. rewrite (localized_valid tz _ _ _ H). simpl. eauto.
Qed.

(** [next_day] is the following calendar day. *)
Lemma next_day_ordinal (tz : timezone) (d d' : datetime) :
  valid_date (year d) (month d) (day d) = true ->
  next_day tz d = Ok d' ->
  toordinal d' = toordinal d + 1.
Proof.
  intros Hv H.
  destruct (next_day_inv tz d d' H) as (y & m & n & -> & Hv' & Hcase).
  apply valid_date_iff in Hv as (Hy & Hm & Hd).
  unfold toordinal, ymd2ord. simpl.
  destruct Hcase as [(-> & -> & ->)|[(-> & -> & -> & E1)|(-> & -> & -> & E1 & E2)]].
  - lia.
  - apply valid_date_iff in Hv' as (_ & Hm' & _).
    assert (Hlast : day d = monthrange (year d) (month d)).
    { destruct (Z.eq_dec (day d) (monthrange (year d) (month d))) as [e|n];
        [exact e|].
      assert (valid_date (year d) (month d) (day d + 1) = true)
        by (apply valid_date_iff; lia).
      congruence. }
    rewrite days_before_next_month by lia. lia.
  - assert (Hlast : day d = monthrange (year d) (month d)).
    { destruct (Z.eq_dec (day d) (monthrange (year d) (month d))) as [e|n];
        [exact e|].
      assert (valid_date (year d) (month d) (day d + 1) = true)
        by (apply valid_date_iff; lia).
      congruence. }
    assert (Hdec : month d = 12).
    { destruct (Z.eq_dec (month d) 12) as [e|n]; [exact e|].
      assert (valid_date (year d) (month d + 1) 1 = true).
      { apply valid_date_iff.
        pose proof (monthrange_bounds (year d) (month d + 1)). lia. }
      congruence. }
    rewrite days_before_next_year, Hlast, Hdec.
    unfold days_before_month, monthrange. simpl.
    destruct (is_leap (year d)); lia.
Qed.

(** The measure of the loop goes down at each retry. *)
Lemma next_day_days_left (tz : timezone) (d d' : datetime) :
  month d <= 12 -> day d <= 31 ->
  next_day tz d = Ok d' ->
  days_left d' < days_left d.
Proof.
  intros Hm Hd H.
  destruct (next_day_inv tz d d' H) as (y & m & n & -> & Hv' & Hcase).
  unfold days_left. cbn [year month day].
  destruct Hcase as [(-> & -> & ->)|[(-> & -> & -> & E1)|(-> & -> & -> & E1 & E2)]];
    lia.
Qed.

Lemma next_day_year (tz : timezone) (d d' : datetime) :
  next_day tz d = Ok d' ->
  year d <= year d' <= year d + 1
  /\ 1 <= year d' <= 9999 /\ 1 <= month d' <= 12 /\ 1 <= day d' <= 31.
Proof.
  intros H.
  destruct (next_day_inv tz d d' H) as (y & m & n & -> & Hv' & Hcase).
  apply valid_date_iff in Hv' as (Hy & Hm & Hn).
  pose proof (monthrange_bounds y m Hm). simpl.
  destruct Hcase as [(-> & -> & ->)|[(-> & -> & -> & E1)|(-> & -> & -> & E1 & E2)]];
    lia.
Qed.

(** ** The field loop and the retry loop *)

Lemma fold_min_In (xs : list Z) : forall x, In (fold_left Z.min xs x) (x :: xs).
Proof.
  induction xs as [|y xs IH]; intros x; simpl; [auto|].
  destruct (IH (Z.min x y)) as [H|H]; [|right; right; exact H].
  destruct (Z.min_spec x y) as [[_ E]|[_ E]]; rewrite E in *;
    [left | right; left]; exact H.
Qed.

Lemma py_min_filter (f : Z -> bool) (l : list Z) (v : Z) :
  py_min (filter f l) = Some v -> In v l /\ f v = true.
Proof.
  unfold py_min. destruct (filter f l) as [|x xs] eqn:E; [discriminate|].
  intros H. injection H as <-.
  apply filter_In. rewrite E. apply fold_min_In.
Qed.

Lemma py_min_filter_none (f : Z -> bool) (l : list Z) :
  (forall v, In v l -> f v = false) -> py_min (filter f l) = None.
Proof.
  intros H. destruct (filter f l) as [|x xs] eqn:E; [reflexivity|].
  assert (Hx : In x (filter f l)) by (rewrite E; left; reflexivity).
  apply filter_In in Hx as [Hin Hf]. rewrite (H x Hin) in Hf. discriminate.
Qed.

Lemma rebuild_localize_inv (tz : timezone) (d : datetime) (t : cron_type)
    (v : Z) (x y : datetime) :
  rebuild d t v = Some x -> localize tz x = Some y ->
  let pick dv := if cron_type_eqb dv t then v else getattr d dv in
  y = mk_datetime (pick Year) (pick Month) (pick Day) (pick Hour) (pick Minute)
        0 0 (Some tz)
  /\ valid_datetime y = true.
Proof.
  unfold rebuild. intros Hx Hy. cbv zeta.
  apply new_datetime_inv in Hx as (-> & Hd & Ht).
  unfold localize in Hy. simpl in Hy. injection Hy as <-.
  split; [reflexivity|]. unfold valid_datetime.
  apply andb_true_iff. split; [exact Hd | exact Ht].
Qed.

Section SearchFacts.

Variable values : list (list Z).
Variables last_day last_weekday : bool.

(** A candidate built by the field loop: every field was taken from its
    set, none went below the field of the starting date, and the
    candidate is an existing date on a whole minute in the zone [tz]. *)
Lemma carry_fields_Carried (tz : timezone) (d r : datetime) :
  carry_fields values tz 0 cron_attributes d = Carried r ->
  (In (minute r) (nth 0 values []) /\ In (hour r) (nth 1 values [])
   /\ In (day r) (nth 2 values []) /\ In (month r) (nth 3 values [])
   /\ In (year r) (nth 5 values []))
  /\ (minute d <= minute r /\ hour d <= hour r /\ day d <= day r
      /\ month d <= month r /\ year d <= year r)
  /\ second r = 0 /\ microsecond r = 0 /\ tzinfo r = Some tz
  /\ valid_datetime r = true.
Proof.
  unfold cron_attributes. cbn [carry_fields fst cron_type_eqb].
  intros H.
  repeat match type of H with
    | context [py_min (filter ?f ?l)] =>
        let v := fresh "v" in
        let Hv := fresh "Hv" in
        destruct (py_min (filter f l)) as [v|] eqn:Hv; [|discriminate H];
        apply py_min_filter in Hv; destruct Hv as [? Hv];
        apply Z.leb_le in Hv
    | context [rebuild ?d ?t ?v] =>
        let x := fresh "x" in
        let Hx := fresh "Hx" in
        destruct (rebuild d t v) as [x|] eqn:Hx; [|discriminate H]
    | context [localize ?tz ?d] =>
        let y := fresh "y" in
        let Hy := fresh "Hy" in
        destruct (localize tz d) as [y|] eqn:Hy; [|discriminate H];
        match goal with
        | Hx : rebuild _ _ _ = Some d |- _ =>
            destruct (rebuild_localize_inv _ _ _ _ _ _ Hx Hy) as [? ?];
            clear Hx Hy
        end
    end.
  injection H as <-. subst. cbn in *. auto 20.
Qed.

Lemma attempt_Carried (tz : timezone) (d r : datetime) :
  attempt values last_day last_weekday tz d = Carried r ->
  carry_fields values tz 0 cron_attributes d = Carried r
  /\ passes_filters values last_day last_weekday r = true.
Proof.
  unfold attempt.
  destruct (carry_fields values tz 0 cron_attributes d) as [x| |];
    try discriminate.
  destruct (passes_filters values last_day last_weekday x) eqn:E;
    [|discriminate].
  intros H. injection H as <-. auto.
Qed.

(** How the loop can leave, for any property [P] of the dates it tries
    that holds at the start and is kept by each retry. *)
Lemma retry_loop_inv (P : datetime -> Prop) (tz : timezone) :
  (forall d d', P d ->
                attempt values last_day last_weekday tz d = Abandoned ->
                next_day tz d = Ok d' -> year d' < 2100 -> P d') ->
  forall fuel d r,
    P d -> retry_loop values last_day last_weekday fuel tz d = Some r ->
    exists d0,
      P d0
      /\ match r with
         | Ok (Some t) => attempt values last_day last_weekday tz d0 = Carried t
         | Ok None =>
             attempt values last_day last_weekday tz d0 = Exhausted
             \/ (attempt values last_day last_weekday tz d0 = Abandoned
                 /\ exists d', next_day tz d0 = Ok d' /\ 2100 <= year d')
         | Raise e =>
             attempt values last_day last_weekday tz d0 = Abandoned
             /\ next_day tz d0 = Raise e
         end.
Proof.
  intros Hstep. induction fuel as [|fuel IH]; intros d r HP H;
    [discriminate|].
  cbn [retry_loop] in H.
  destruct (attempt values last_day last_weekday tz d) as [x| |] eqn:Ha.
  - injection H as <-. exists d. auto.
  - destruct (next_day tz d) as [d'|e] eqn:Hn.
    + destruct (2100 <=? year d') eqn:Ey.
      * injection H as <-. exists d. split; [exact HP|].
        right. split; [exact Ha|]. exists d'. split; [exact Hn|].
        apply Z.leb_le. exact Ey.
      * apply (IH d' r); [|exact H].
        apply (Hstep d d' HP Ha Hn). apply Z.leb_gt. exact Ey.
    + injection H as <-. exists d. auto.
  - injection H as <-. exists d. auto.
Qed.

(** The loop leaves before its fuel is spent. *)
Lemma retry_loop_total_from (tz : timezone) :
  forall fuel d,
    month d <= 12 -> day d <= 31 ->
    (0 < fuel)%nat -> days_left d < Z.of_nat fuel ->
    exists r, retry_loop values last_day last_weekday fuel tz d = Some r.
Proof.
  induction fuel as [|fuel IH]; intros d Hm Hd Hpos Hfuel; [lia|].
  cbn [retry_loop].
  destruct (attempt values last_day last_weekday tz d) as [x| |];
    [eauto | | eauto].
  destruct (next_day tz d) as [d'|e] eqn:Hn; [|eauto].
  destruct (2100 <=? year d') eqn:Ey; [eauto|].
  apply Z.leb_gt in Ey.
  pose proof (next_day_days_left tz d d' Hm Hd Hn) as Hless.
  destruct (next_day_year tz d d' Hn) as (_ & Hy & Hm' & Hd').
  assert (0 <= days_left d') by (unfold days_left; lia).
  apply IH; lia.
Qed.

Lemma retry_loop_total (tz : timezone) (d : datetime) :
  exists r,
    retry_loop values last_day last_weekday (fuel_of d) tz d = Some r.
Proof.
  unfold fuel_of. cbn [retry_loop].
  destruct (attempt values last_day last_weekday tz d) as [x| |];
    [eauto | | eauto].
  destruct (next_day tz d) as [d'|e] eqn:Hn; [|eauto].
  destruct (2100 <=? year d') eqn:Ey; [eauto|].
  apply Z.leb_gt in Ey.
  destruct (next_day_year tz d d' Hn) as (Hyy & Hy & Hm' & Hd').
  assert (0 <= days_left d' < (2101 - year d) * 372)
    by (unfold days_left; lia).
  apply retry_loop_total_from; lia.
Qed.

Lemma calculate_date_total (d : option datetime) :
  exists r, calculate_date values last_day last_weekday d = Some r.
Proof.
  destruct d as [d|]; [|simpl; eauto].
  unfold calculate_date.
  destruct (retry_loop_total
              (match tzinfo d with Some z => z | None => UTC end) d)
    as [r Hr].
  rewrite Hr. destruct r as [[t|]|e]; eauto.
Qed.

Lemma calculate_all_total (tz : option timezone) (ds : list datetime) :
  exists r, calculate_all values last_day last_weekday tz ds = Some r.
Proof.
  induction ds as [|d ds [rs IH]]; [simpl; eauto|].
  cbn [calculate_all].
  destruct (match tz with Some z => localize z d | None => Some d end)
    as [d0|]; [|eauto].
  destruct (calculate_date_total (Some d0)) as [r Hr]. rewrite Hr.
  destruct r as [r|e]; [|eauto].
  rewrite IH. destruct rs; eauto.
Qed.

End SearchFacts.

Lemma get_next_datetime_total (crontab_notation : string) (now_date : datetime) :
  exists r, get_next_datetime crontab_notation now_date = Some r.
Proof.
  unfold get_next_datetime.
  destruct (parse_crontab crontab_notation) as [[[values ld] lw]|e]; [|eauto].
  destruct (seeds now_date) as [ds|e]; [|eauto].
  destruct (calculate_all_total values ld lw (tzinfo now_date) (somes ds))
    as [r Hr].
  rewrite Hr. destruct r; eauto.
Qed.

(** ** Termination *)

(** C3: the search always leaves its loops.  [get_next_datetime] gives an
    outcome on every notation and every reference, because the retry loop
    leaves before the fuel computed from its seed is spent; each retry
    continues from midnight of the calendar day that follows the date it
    started from; and the loop returns no instant as soon as that day lies
    in the year 2100 or later. *)
Theorem search_terminates :
  (forall crontab_notation now_date,
      exists r, get_next_datetime crontab_notation now_date = Some r)
  /\ (forall values last_day last_weekday tz seed,
        exists r,
          retry_loop values last_day last_weekday (fuel_of seed) tz seed
          = Some r)
  /\ (forall tz d d',
        valid_date (year d) (month d) (day d) = true ->
        next_day tz d = Ok d' ->
        toordinal d' = toordinal d + 1 /\ hour d' = 0 /\ minute d' = 0)
  /\ (forall values last_day last_weekday fuel tz d d',
        attempt values last_day last_weekday tz d = Abandoned ->
        next_day tz d = Ok d' ->
        (2100 <= year d' ->
         retry_loop values last_day last_weekday (S fuel) tz d = Some (Ok None))
        /\ (year d' < 2100 ->
            retry_loop values last_day last_weekday (S fuel) tz d
            = retry_loop values last_day last_weekday fuel tz d')).
Proof.
  split; [exact get_next_datetime_total|].
  split; [exact retry_loop_total|].
  split.
  - intros tz d d' Hv Hn. split; [exact (next_day_ordinal tz d d' Hv Hn)|].
    destruct (next_day_inv tz d d' Hn) as (y & m & n & -> & _). auto.
  - intros values ld lw fuel tz d d' Ha Hn. cbn [retry_loop].
    rewrite Ha, Hn. split; intros Hy.
    + apply Z.leb_le in Hy. rewrite Hy. reflexivity.
    + apply Z.leb_gt in Hy. rewrite Hy. reflexivity.
Qed.

(** The day after 2021-12-31 is 2022-01-01, and a retry that reaches
    2100-01-01 ends the search. *)
Lemma search_terminates_witness :
  toordinal (mk_datetime 2022 1 1 0 0 0 0 (Some UTC))
  = toordinal (naive 2021 12 31 23 59 0 0) + 1
  /\ retry_loop [[0]; [0]; [1]; [1]; [0; 1; 2; 3; 4; 5; 6]; [2021]]
       false false 1 UTC (naive 2099 12 31 0 0 0 0)
     = Some (Ok None).
Proof.
  destruct search_terminates as (_ & _ & Hday & Hstop).
  split.
  - refine (proj1 (Hday UTC (naive 2021 12 31 23 59 0 0)
                     (mk_datetime 2022 1 1 0 0 0 0 (Some UTC)) _ _));
      reflexivity.
  - refine (proj1 (Hstop [[0]; [0]; [1]; [1]; [0; 1; 2; 3; 4; 5; 6]; [2021]]
                     false false 0%nat UTC (naive 2099 12 31 0 0 0 0)
                     (mk_datetime 2100 1 1 0 0 0 0 (Some UTC)) _ _) _);
      [reflexivity | reflexivity | simpl; lia].
Defined.

(** ** What a returned instant satisfies *)

Lemma mem_In (x : Z) (l : list Z) : In x l -> mem x l = true.
Proof.
  intros H. apply existsb_exists. exists x. split; [exact H|apply Z.eqb_refl].
Qed.

Lemma min_datetime_In (l : list datetime) :
  forall d, In (min_datetime d l) (d :: l).
Proof.
  unfold min_datetime.
  induction l as [|x l IH]; intros d; simpl; [auto|].
  destruct (IH (if dt_ltb x d then x else d)) as [H|H]; [|auto].
  destruct (dt_ltb x d); rewrite <- H; auto.
Qed.

Lemma earliest_In (rs : list (option datetime)) (t : datetime) :
  earliest rs = Some t -> In t (somes rs).
Proof.
  unfold earliest. destruct (somes rs) as [|d l]; [discriminate|].
  intros H. injection H as <-. apply min_datetime_In.
Qed.

Section Soundness.

Variable values : list (list Z).
Variables last_day last_weekday : bool.

Lemma attempt_satisfies (tz : timezone) (d r : datetime) :
  attempt values last_day last_weekday tz d = Carried r ->
  satisfies values last_day last_weekday r = true
  /\ on_minute r = true /\ valid_datetime r = true.
Proof.
  intros H. apply attempt_Carried in H as [Hc Hf].
  apply carry_fields_Carried in Hc
    as ((Hmi & Hh & Hd & Hm & Hy) & _ & Hs & Hus & _ & Hv).
  unfold satisfies, on_minute.
  rewrite !mem_In, Hf, Hs, Hus by assumption. auto.
Qed.

Lemma calculate_date_satisfies (d t : datetime) :
  calculate_date values last_day last_weekday (Some d) = Some (Ok (Some t)) ->
  satisfies values last_day last_weekday t = true
  /\ on_minute t = true /\ valid_datetime t = true.
Proof.
  unfold calculate_date.
  set (tz := match tzinfo d with Some z => z | None => UTC end).
  destruct (retry_loop values last_day last_weekday (fuel_of d) tz d)
    as [[[r|]|e]|] eqn:Hloop; try discriminate.
  intros H. injection H as <-.
  destruct (retry_loop_inv values last_day last_weekday (fun _ => True) tz
              (fun _ _ _ _ _ _ => I) _ d _ I Hloop) as (d0 & _ & Ha).
  apply attempt_satisfies in Ha.
  destruct (tzinfo d); exact Ha.
Qed.

Lemma calculate_all_satisfies (tz : option timezone) (ds : list datetime) :
  forall rs t,
    calculate_all values last_day last_weekday tz ds = Some (Ok rs) ->
    In t (somes rs) ->
    satisfies values last_day last_weekday t = true
    /\ on_minute t = true /\ valid_datetime t = true.
Proof.
  induction ds as [|d ds IH]; intros rs t H Hin.
  - injection H as <-. contradiction.
  - cbn [calculate_all] in H.
    destruct (match tz with Some z => localize z d | None => Some d end)
      as [d0|]; [|discriminate].
    destruct (calculate_date values last_day last_weekday (Some d0))
      as [[r|e]|] eqn:Hd; try discriminate.
    destruct (calculate_all values last_day last_weekday tz ds)
      as [[rs'|e]|]; try discriminate.
    injection H as <-.
    destruct r as [r|]; [destruct Hin as [<-|Hin]|].
    + eapply calculate_date_satisfies; eassumption.
    + eapply IH; [reflexivity | exact Hin].
    + eapply IH; [reflexivity | exact Hin].
Qed.

End Soundness.

(** Every instant [get_next_datetime] returns is an existing date on a
    whole minute at which the parsed schedule holds. *)
Lemma get_next_datetime_satisfies (crontab_notation : string)
    (now_date t : datetime) (values : list (list Z))
    (last_day last_weekday : bool) :
  parse_crontab crontab_notation = Ok (values, last_day, last_weekday) ->
  get_next_datetime crontab_notation now_date = Some (Ok (Some t)) ->
  satisfies values last_day last_weekday t = true
  /\ on_minute t = true /\ valid_datetime t = true.
Proof.
  intros Hparse. unfold get_next_datetime. rewrite Hparse.
  destruct (seeds now_date) as [ds|e]; [|discriminate].
  destruct (calculate_all values last_day last_weekday (tzinfo now_date)
              (somes ds)) as [[rs|e]|] eqn:Hall; try discriminate.
  intros H. injection H as H. apply earliest_In in H.
  eapply calculate_all_satisfies; eassumption.
Qed.

(** ** The last-day flag *)

Lemma split_by_head (p : ascii -> bool) (s : string) (c : ascii) (a : string)
    (rest : list string) :
  Str.split_by p s = String c a :: rest -> exists s', s = String c s'.
Proof.
  destruct s as [|c0 s]; simpl; [discriminate|].
  destruct (p c0); [discriminate|].
  destruct (Str.split_by p s); intros H; injection H as -> _; eauto.
Qed.

(** The range step raises the flag only for a term that starts with l. *)
Lemma part_range_last (aliases : list (string * Z)) (part : string)
    (possible_values vs : list Z) :
  part_range aliases part possible_values = Ok (vs, true) ->
  starts_with_l part = true.
Proof.
  unfold part_range.
  destruct (Str.contains "-" part); [|discriminate].
  destruct (Str.split "-" part) as [|a [|b [|? ?]]] eqn:Hsplit;
    try discriminate.
  cbn [unpack2 bind].
  destruct (if Str.contains "/" b then _ else _) as [b'|e];
    [|discriminate].
  cbn [bind]. destruct a as [|c a]; [discriminate|].
  cbn [Str.first bind].
  destruct (split_by_head _ _ _ _ _ Hsplit) as [s' ->].
  destruct (Ascii.eqb c "l") eqn:Hc; [intros _; exact Hc|].
  destruct (int_alias aliases (String c a)); [|discriminate].
  cbn [or_ValueError bind].
  destruct (int_alias aliases b'); discriminate.
Qed.

(** The flag a term comes back with says whether it starts with l. *)
Lemma parse_part_last (attr : cron_attr) (part : string) (vs : list Z)
    (last : bool) :
  parse_part attr part = Ok (vs, last) -> last = starts_with_l part.
Proof.
  destruct attr as [[t [lo hi]] aliases]. unfold parse_part.
  destruct (part_range aliases part (range_incl lo hi)) as [[pv l1]|e] eqn:Hr;
    [|discriminate].
  cbn [bind].
  destruct (part_step aliases part pv) as [pv2|e]; [|discriminate].
  cbn [bind]. unfold part_single.
  destruct part as [|c part]; [discriminate|].
  cbn [Str.first bind starts_with_l].
  rewrite (Ascii.eqb_sym "l" c).
  destruct (Ascii.eqb c "l") eqn:Hc.
  - destruct (int_alias aliases (Str.tail (String c part)));
      intros H; injection H as _ <-; reflexivity.
  - destruct l1.
    + apply part_range_last in Hr. simpl in Hr. congruence.
    + destruct (int_alias aliases (String c part));
        intros H; injection H as _ <-; reflexivity.
Qed.

Lemma parse_parts_flags (attr : cron_attr) (parts : list string) :
  forall av ld lw av' ld' lw',
    parse_parts attr parts av ld lw = Ok (av', ld', lw') ->
    ld' = ld || (cron_type_eqb (fst (fst attr)) Day
                 && existsb starts_with_l parts)
    /\ lw' = lw || (cron_type_eqb (fst (fst attr)) Isoweekday
                    && existsb starts_with_l parts).
Proof.
  induction parts as [|part parts IH]; intros av ld lw av' ld' lw' H.
  - injection H as _ <- <-. rewrite !andb_false_r, !orb_false_r. auto.
  - cbn [parse_parts] in H.
    destruct (parse_part attr part) as [[[|v vs] last]|e] eqn:Hp;
      cbn [bind] in H; try discriminate.
    apply parse_part_last in Hp. apply IH in H as [-> ->].
    cbn [existsb]. rewrite <- Hp.
    destruct last, ld, lw, (cron_type_eqb (fst (fst attr)) Day),
      (cron_type_eqb (fst (fst attr)) Isoweekday),
      (existsb starts_with_l parts); auto.
Qed.

(** The flag [last_day] of a parsed notation: some term of the third field
    starts with l. *)
Lemma parse_crontab_last_day (crontab_notation : string)
    (values : list (list Z)) (last_day last_weekday : bool) :
  parse_crontab crontab_notation = Ok (values, last_day, last_weekday) ->
  last_day = has_last_term (nth 2 (cron_parts_of crontab_notation) "").
Proof.
  unfold parse_crontab.
  destruct (parse_fields cron_attributes (cron_parts_of crontab_notation)
              ([], false, false)) as [[[values' ld] lw]|e] eqn:Hf;
    [|discriminate].
  cbn [bind]. intros Hc.
  assert (ld = last_day).
  { unfold check_days in Hc.
    destruct (py_min (nth 2 values' [])); [|discriminate].
    cbn [or_ValueError bind] in Hc.
    destruct (28 <=? z); [destruct (existsb _ _)|]; congruence. }
  subst ld. clear Hc.
  destruct (cron_parts_of crontab_notation)
    as [|f0 [|f1 [|f2 [|f3 [|f4 [|f5 fs]]]]]];
    unfold cron_attributes in Hf; cbn [parse_fields] in Hf;
    repeat match type of Hf with
      | context [parse_parts ?a ?ps ?av ?ld ?lw] =>
          let H := fresh "Hp" in
          destruct (parse_parts a ps av ld lw) as [[[? ?] ?]|?] eqn:H;
          cbn [bind] in Hf; [apply parse_parts_flags in H as [? ?] | discriminate]
      end;
    try discriminate.
  injection Hf as _ <- _. subst. cbn. unfold has_last_term.
  rewrite !orb_false_r. reflexivity.
Qed.

(** C9: when some term of the day-of-month field starts with l, every
    instant [get_next_datetime] returns falls on the last day of its month;
    for "0 0 l * *" and the naive reference 2021-04-15T00:00:00 it returns
    2021-04-30T00:00:00. *)
Theorem last_day_of_month :
  (forall crontab_notation now_date t,
      has_last_term (nth 2 (cron_parts_of crontab_notation) "") = true ->
      get_next_datetime crontab_notation now_date = Some (Ok (Some t)) ->
      day t = monthrange (year t) (month t))
  /\ get_next_datetime "0 0 l * *" (naive 2021 4 15 0 0 0 0)
     = Some (Ok (Some (naive 2021 4 30 0 0 0 0))).
Proof.
  split; [|vm_compute; reflexivity].
  intros c now t Hl Hget.
  destruct (parse_crontab c) as [[[values ld] lw]|e] eqn:Hparse.
  - pose proof (parse_crontab_last_day c values ld lw Hparse) as Hld.
    rewrite Hl in Hld. subst ld.
    destruct (get_next_datetime_satisfies c now t values true lw Hparse Hget)
      as (Hs & _).
    unfold satisfies in Hs. apply andb_true_iff in Hs as [_ Hf].
    unfold passes_filters in Hf. apply andb_true_iff in Hf as [Hf _].
    apply andb_true_iff in Hf as [_ Hf]. apply Z.eqb_eq. exact Hf.
  - unfold get_next_datetime in Hget. rewrite Hparse in Hget. discriminate.
Qed.

(** The last day of February 2024 is the 29th. *)
Lemma last_day_of_month_witness :
  day (naive 2024 2 29 0 0 0 0) = monthrange 2024 2.
Proof.
  refine (proj1 last_day_of_month "0 0 l * *" (naive 2024 2 10 8 30 0 0)
            (naive 2024 2 29 0 0 0 0) _ _).
  - reflexivity.
  - vm_compute. reflexivity.
Defined.

(** ** Schedules whose years are all past *)

Lemma new_datetime_valid (y m d h mi : Z) :
  valid_date y m d = true -> valid_time h mi 0 0 = true ->
  new_datetime y m d h mi = Some (mk_datetime y m d h mi 0 0 None).
Proof. intros Hd Ht. unfold new_datetime. rewrite Hd, Ht. reflexivity. Qed.

Lemma valid_time_iff (h mi s us : Z) :
  valid_time h mi s us = true
  <-> 0 <= h <= 23 /\ 0 <= mi <= 59 /\ 0 <= s <= 59 /\ 0 <= us <= 999999.
Proof.
  unfold valid_time. split.
  - intros H. zbool. lia.
  - intros (Hh & Hmi & Hs & Hus).
    repeat (apply andb_true_iff; split); apply Z.leb_le; lia.
Qed.

Lemma has_next_day_year (d : datetime) :
  0 <= year d <= 9998 -> has_next_day d = true.
Proof.
  intros H. unfold has_next_day.
  assert (E : valid_date (year d + 1) 1 1 = true).
  { apply valid_date_iff. change (monthrange (year d + 1) 1) with (31 + 0). lia. }
  rewrite E. apply orb_true_r.
Qed.

Lemma In_somes {A : Type} (x : A) (l : list (option A)) :
  In x (somes l) -> In (Some x) l.
Proof.
  induction l as [|[a|] l IH]; simpl; [auto | | auto].
  intros [->|H]; auto.
Qed.

Lemma seed_if_exists (cond : bool) (y m d h mi : Z) :
  (cond = true -> valid_date y m d = true /\ valid_time h mi 0 0 = true) ->
  exists o,
    seed_if cond (new_datetime y m d h mi) = Ok o
    /\ forall x, o = Some x -> x = mk_datetime y m d h mi 0 0 None.
Proof.
  intros H. unfold seed_if. destruct cond.
  - destruct (H eq_refl) as [Hd Ht].
    rewrite (new_datetime_valid _ _ _ _ _ Hd Ht). cbn [or_ValueError bind].
    eexists. split; [reflexivity|]. intros x E. injection E as <-. reflexivity.
  - exists None. split; [reflexivity|]. discriminate.
Qed.

(** The seeds of a reference before the year 9999: all of them exist, none
    is in an earlier year than the reference, each has a following day,
    and each is naive unless it is the reference itself. *)
Lemma seeds_exist (now_date : datetime) :
  valid_datetime now_date = true -> year now_date <= 9998 ->
  exists ds,
    seeds now_date = Ok ds
    /\ forall d, In d (somes ds) ->
         year now_date <= year d /\ has_next_day d = true
         /\ (tzinfo d = None \/ (d = now_date /\ second now_date = 0)).
Proof.
  intros Hv Hy. unfold valid_datetime in Hv.
  apply andb_true_iff in Hv as [Hd Ht].
  pose proof Hd as Hd'. pose proof Ht as Ht'.
  apply valid_date_iff in Hd' as (Hyr & Hm & Hdy).
  apply valid_time_iff in Ht' as (Hh & Hmi & Hs & Hus).
  pose proof (monthrange_bounds (year now_date) (month now_date) Hm) as Hlen.
  assert (T0 : valid_time 0 0 0 0 = true) by reflexivity.
  unfold seeds.
  destruct (seed_if_exists (minute now_date <? 60 - 1) (year now_date)
              (month now_date) (day now_date) (hour now_date)
              (minute now_date + 1)) as (o1 & -> & H1).
  { intros E. apply Z.ltb_lt in E. split; [exact Hd|].
    apply valid_time_iff. lia. }
  destruct (seed_if_exists (hour now_date <? 24 - 1) (year now_date)
              (month now_date) (day now_date) (hour now_date + 1) 0)
    as (o2 & -> & H2).
  { intros E. apply Z.ltb_lt in E. split; [exact Hd|].
    apply valid_time_iff. lia. }
  destruct (seed_if_exists
              (day now_date <? monthrange (year now_date) (month now_date) - 1)
              (year now_date) (month now_date) (day now_date + 1) 0 0)
    as (o3 & -> & H3).
  { intros E. apply Z.ltb_lt in E. split; [|exact T0].
    apply valid_date_iff. lia. }
  destruct (seed_if_exists (month now_date <? 12 - 1) (year now_date)
              (month now_date + 1) 1 0 0) as (o4 & -> & H4).
  { intros E. apply Z.ltb_lt in E. split; [|exact T0].
    apply valid_date_iff.
    pose proof (monthrange_bounds (year now_date) (month now_date + 1)). lia. }
  assert (E5 : valid_date (year now_date + 1) 1 1 = true).
  { apply valid_date_iff.
    change (monthrange (year now_date + 1) 1) with (31 + 0). lia. }
  cbn [bind]. rewrite (new_datetime_valid _ _ _ _ _ E5 T0).
  cbn [or_ValueError bind].
  eexists. split; [reflexivity|].
  assert (Hsame : forall d, year d = year now_date -> has_next_day d = true)
    by (intros d E; apply has_next_day_year; lia).
  intros d Hin. apply In_somes in Hin.
  destruct Hin as [E|[E|[E|[E|[E|[E|[]]]]]]].
  - destruct (second now_date =? 0) eqn:Es; [|discriminate].
    injection E as <-. split; [lia|]. split; [apply Hsame; reflexivity|].
    right. split; [reflexivity|]. apply Z.eqb_eq. exact Es.
  - rewrite (H1 d E). cbn [year tzinfo].
    split; [lia|]. split; [apply Hsame; reflexivity | left; reflexivity].
  - rewrite (H2 d E). cbn [year tzinfo].
    split; [lia|]. split; [apply Hsame; reflexivity | left; reflexivity].
  - rewrite (H3 d E). cbn [year tzinfo].
    split; [lia|]. split; [apply Hsame; reflexivity | left; reflexivity].
  - rewrite (H4 d E). cbn [year tzinfo].
    split; [lia|]. split; [apply Hsame; reflexivity | left; reflexivity].
  - injection E as <-. cbn [year tzinfo].
    split; [lia|]. split; [|left; reflexivity].
    unfold has_next_day. cbn [year month day].
    assert (E2 : valid_date (year now_date + 1) 1 (1 + 1) = true).
    { apply valid_date_iff.
      change (monthrange (year now_date + 1) 1) with (31 + 0). lia. }
    rewrite E2. reflexivity.
Qed.

Section PastYears.

Variable values : list (list Z).
Variables last_day last_weekday : bool.
Variable this_year : Z.
Hypothesis years_past : forall v, In v (nth 5 values []) -> v < this_year.



End PastYears.




(** An aware reference on a whole minute is its own first seed and is
    localized a second time, which raises [ValueError]; with non-zero
    seconds the same reference gives an outcome. *)
Lemma aware_reference_on_minute_raises :
  get_next_datetime "* * * * * 2000" (mk_datetime 2021 1 1 0 0 0 0 (Some UTC))
  = Some (Raise ValueError)
  /\ get_next_datetime "* * * * * 2000"
       (mk_datetime 2021 1 1 0 0 1 0 (Some UTC))
     = Some (Ok None)
  /\ get_next_datetime "* * * * *" (mk_datetime 2021 1 1 0 0 0 0 (Some UTC))
     = Some (Raise ValueError)
  /\ get_next_datetime "* * * * *" (mk_datetime 2021 1 1 0 0 1 0 (Some UTC))
     = Some (Ok (Some (mk_datetime 2021 1 1 0 1 0 0 (Some UTC)))).
Proof. repeat split; vm_compute; reflexivity. Qed.

(** ** Returned instants and the reference *)

Lemma valid_datetime_bounds (d : datetime) :
  valid_datetime d = true ->
  1 <= year d <= 9999 /\ 1 <= month d <= 12 /\ 1 <= day d <= 31
  /\ 0 <= hour d <= 23 /\ 0 <= minute d <= 59
  /\ 0 <= second d <= 59 /\ 0 <= microsecond d <= 999999.
Proof.
  unfold valid_datetime. intros H. apply andb_true_iff in H as [Hd Ht].
  apply valid_date_iff in Hd as (Hy & Hm & Hdy).
  apply valid_time_iff in Ht.
  pose proof (monthrange_bounds (year d) (month d) Hm). lia.
Qed.

(** An instant is not before another when its minute is later, or the
    same with seconds and microseconds that are not smaller. *)
Lemma dt_ltb_false (t now : datetime) :
  valid_datetime t = true -> valid_datetime now = true ->
  minute_key now <= minute_key t ->
  (minute_key now = minute_key t ->
   second now <= second t
   /\ (second now = second t -> microsecond now <= microsecond t)) ->
  dt_ltb t now = false.
Proof.
  intros Ht Hn Hle Heq.
  apply valid_datetime_bounds in Ht. apply valid_datetime_bounds in Hn.
  unfold minute_key in *. unfold dt_ltb, fields_of. cbn [lex_ltb].
  destruct (Z.ltb_spec (year t) (year now)); [lia|].
  destruct (Z.eqb_spec (year t) (year now)); [|reflexivity].
  destruct (Z.ltb_spec (month t) (month now)); [lia|].
  destruct (Z.eqb_spec (month t) (month now)); [|reflexivity].
  destruct (Z.ltb_spec (day t) (day now)); [lia|].
  destruct (Z.eqb_spec (day t) (day now)); [|reflexivity].
  destruct (Z.ltb_spec (hour t) (hour now)); [lia|].
  destruct (Z.eqb_spec (hour t) (hour now)); [|reflexivity].
  destruct (Z.ltb_spec (minute t) (minute now)); [lia|].
  destruct (Z.eqb_spec (minute t) (minute now)); [|reflexivity].
  destruct (Z.ltb_spec (second t) (second now)); [lia|].
  destruct (Z.eqb_spec (second t) (second now)); [|reflexivity].
  destruct (Z.ltb_spec (microsecond t) (microsecond now)); [lia|].
  destruct (Z.eqb_spec (microsecond t) (microsecond now)); reflexivity.
Qed.

Lemma next_day_key (tz : timezone) (d d' : datetime) :
  valid_datetime d = true -> next_day tz d = Ok d' ->
  valid_datetime d' = true /\ minute_key d < minute_key d'.
Proof.
  intros Hv Hn. apply valid_datetime_bounds in Hv.
  destruct (next_day_inv tz d d' Hn) as (y & m & n & -> & Hv' & Hcase).
  split.
  - unfold valid_datetime. cbn [year month day hour minute second microsecond].
    rewrite Hv'. reflexivity.
  - unfold minute_key. cbn [year month day hour minute].
    apply valid_date_iff in Hv' as (Hy & Hm & Hd).
    destruct Hcase as [(-> & -> & ->)|[(-> & -> & -> & _)|(-> & -> & -> & _)]];
      lia.
Qed.

Section NotBefore.

Variable values : list (list Z).
Variables last_day last_weekday : bool.

Lemma calculate_date_not_before (d t : datetime) :
  valid_datetime d = true ->
  calculate_date values last_day last_weekday (Some d) = Some (Ok (Some t)) ->
  minute_key d <= minute_key t.
Proof.
  intros Hv. unfold calculate_date.
  set (tz := match tzinfo d with Some z => z | None => UTC end).
  destruct (retry_loop values last_day last_weekday (fuel_of d) tz d)
    as [[[r|]|e]|] eqn:Hloop; try discriminate.
  intros H. injection H as <-.
  destruct (retry_loop_inv values last_day last_weekday
              (fun x => valid_datetime x = true /\ minute_key d <= minute_key x)
              tz) with (fuel := fuel_of d) (d := d) (r := Ok (Some r))
    as (d0 & [Hv0 Hk0] & Ha); [| split; [exact Hv | lia] | exact Hloop |].
  - intros x x' [Hx Hk] _ Hnext _.
    destruct (next_day_key tz x x' Hx Hnext). split; [assumption | lia].
  - apply attempt_Carried in Ha as [Hc _].
    apply carry_fields_Carried in Hc as (_ & Hge & _).
    assert (minute_key d0 <= minute_key r) by (unfold minute_key; lia).
    assert (minute_key (naive_copy r) = minute_key r) by reflexivity.
    destruct (tzinfo d); lia.
Qed.

Lemma calculate_all_not_before (now_date : datetime) (tz : option timezone)
    (ds : list datetime) :
  (forall d, In d ds ->
     valid_datetime d = true
     /\ (minute_key now_date < minute_key d
         \/ (minute_key now_date <= minute_key d /\ second now_date = 0))) ->
  forall rs t,
    calculate_all values last_day last_weekday tz ds = Some (Ok rs) ->
    In t (somes rs) ->
    minute_key now_date < minute_key t
    \/ (minute_key now_date <= minute_key t /\ second now_date = 0).
Proof.
  induction ds as [|d ds IH]; intros Hds rs t H Hin.
  - injection H as <-. contradiction.
  - cbn [calculate_all] in H.
    destruct (match tz with Some z => localize z d | None => Some d end)
      as [d0|] eqn:Hloc; [|discriminate].
    destruct (calculate_date values last_day last_weekday (Some d0))
      as [[r|e]|] eqn:Hd; try discriminate.
    destruct (calculate_all values last_day last_weekday tz ds)
      as [[rs'|e]|]; try discriminate.
    injection H as <-.
    assert (Htail : forall x, In x ds ->
              valid_datetime x = true
              /\ (minute_key now_date < minute_key x
                  \/ (minute_key now_date <= minute_key x
                      /\ second now_date = 0)))
      by (intros x Hx; apply Hds; right; exact Hx).
    destruct r as [r|]; [destruct Hin as [<-|Hin]|];
      try (eapply IH; [exact Htail | reflexivity | exact Hin]).
    destruct (Hds d (or_introl eq_refl)) as [Hv Hk].
    assert (Hd0 : valid_datetime d0 = true /\ minute_key d0 = minute_key d).
    { destruct tz as [z|]; [|injection Hloc as <-; auto].
      unfold localize in Hloc. destruct (tzinfo d); [discriminate|].
      injection Hloc as <-. auto. }
    destruct Hd0 as [Hv0 Hk0].
    pose proof (calculate_date_not_before d0 r Hv0 Hd). lia.
Qed.

End NotBefore.

Lemma seed_if_inv (cond : bool) (y m d h mi : Z) (x : datetime) :
  seed_if cond (new_datetime y m d h mi) = Ok (Some x) ->
  cond = true /\ x = mk_datetime y m d h mi 0 0 None
  /\ valid_datetime x = true.
Proof.
  unfold seed_if. destruct cond; [|discriminate].
  destruct (new_datetime y m d h mi) as [n|] eqn:E; [|discriminate].
  cbn [or_ValueError bind]. intros H. injection H as <-.
  apply new_datetime_inv in E as (-> & Hd & Ht).
  split; [reflexivity|]. split; [reflexivity|].
  unfold valid_datetime. cbn [year month day hour minute second microsecond].
  rewrite Hd, Ht. reflexivity.
Qed.

(** Every seed is the reference itself, on a whole-second-zero reference,
    or a valid datetime in a later minute. *)
Lemma seeds_after (now_date : datetime) (ds : list (option datetime)) :
  valid_datetime now_date = true ->
  seeds now_date = Ok ds ->
  forall d, In d (somes ds) ->
    valid_datetime d = true
    /\ (minute_key now_date < minute_key d
        \/ (minute_key now_date <= minute_key d /\ second now_date = 0)).
Proof.
  intros Hv Hs d Hin. pose proof (valid_datetime_bounds now_date Hv) as Hb.
  unfold seeds in Hs.
  destruct (seed_if (minute now_date <? 60 - 1) _) as [o1|] eqn:E1;
    [|discriminate].
  destruct (seed_if (hour now_date <? 24 - 1) _) as [o2|] eqn:E2;
    [|discriminate].
  destruct (seed_if (day now_date <? _) _) as [o3|] eqn:E3; [|discriminate].
  destruct (seed_if (month now_date <? 12 - 1) _) as [o4|] eqn:E4;
    [|discriminate].
  cbn [bind] in Hs.
  destruct (new_datetime (year now_date + 1) 1 1 0 0) as [s5|] eqn:E5;
    [|discriminate].
  cbn [or_ValueError bind] in Hs. injection Hs as <-.
  apply In_somes in Hin.
  destruct Hin as [E|[E|[E|[E|[E|[E|[]]]]]]].
  - destruct (second now_date =? 0) eqn:Es; [|discriminate].
    injection E as <-. split; [exact Hv|]. right.
    split; [lia | apply Z.eqb_eq; exact Es].
  - subst o1. apply seed_if_inv in E1 as (_ & -> & Hx).
    split; [exact Hx|]. left. unfold minute_key. cbn. lia.
  - subst o2. apply seed_if_inv in E2 as (_ & -> & Hx).
    split; [exact Hx|]. left. unfold minute_key. cbn. lia.
  - subst o3. apply seed_if_inv in E3 as (_ & -> & Hx).
    split; [exact Hx|]. left. unfold minute_key. cbn. lia.
  - subst o4. apply seed_if_inv in E4 as (_ & -> & Hx).
    split; [exact Hx|]. left. unfold minute_key. cbn. lia.
  - injection E as <-. apply new_datetime_inv in E5 as (-> & Hd5 & Ht5).
    split.
    + unfold valid_datetime. cbn [year month day hour minute second microsecond].
      rewrite Hd5. reflexivity.
    + left. unfold minute_key. cbn. lia.
Qed.


(** * Further properties of the module *)

(** ** Notations that read alike *)

(** X15: a macro gives, for every reference, the outcome of the notation it
    stands for. *)
Theorem macro_expansion (name expansion : string) (now_date : datetime) :
  In (name, expansion) crontab_aliases ->
  get_next_datetime name now_date = get_next_datetime expansion now_date.
Proof.
  intros Hin.
  assert (Hparts : cron_parts_of name = cron_parts_of expansion).
  { unfold crontab_aliases in Hin. simpl in Hin.
    repeat (destruct Hin as [Hin|Hin];
            [injection Hin as <- <-; vm_compute; reflexivity|]).
    contradiction. }
  unfold get_next_datetime, parse_crontab. rewrite Hparts. reflexivity.
Qed.

(** The yearly macro and its notation, asked in the middle of 2021. *)
Lemma macro_expansion_witness :
  get_next_datetime "@yearly" (naive 2021 6 15 12 30 0 0)
  = get_next_datetime "0 0 1 1 *" (naive 2021 6 15 12 30 0 0).
Proof.
  apply (macro_expansion "@yearly" "0 0 1 1 *" (naive 2021 6 15 12 30 0 0)).
  left. reflexivity.
Defined.

Lemma cron_parts_of_words (s : string) :
  Forall (fun w => is_word w = true) (cron_parts_of s).
Proof.
  unfold cron_parts_of. apply Forall_app. split.
  - apply Forall_forall. intros w Hw. apply filter_In in Hw as [Hw _].
    revert w Hw. apply Forall_forall. apply split_ws_words.
  - apply Forall_forall. intros w Hw. apply repeat_spec in Hw. subst.
    reflexivity.
Qed.

Lemma cron_parts_of_length (s : string) :
  (6 <= List.length (cron_parts_of s))%nat.
Proof.
  unfold cron_parts_of. rewrite length_app, repeat_length.
  change (List.length cron_attributes) with 6%nat. lia.
Qed.

(** X16: every notation gives the outcome of the six-field notation made of the
    fields the parser reads from it: the macro expanded, missing fields
    written as stars, fields after the sixth left out. *)
Theorem six_field_normal_form (crontab_notation : string)
    (now_date : datetime) :
  get_next_datetime crontab_notation now_date
  = get_next_datetime
      (Str.join " " (firstn 6 (cron_parts_of crontab_notation))) now_date.
Proof.
  set (six := Str.join " " (firstn 6 (cron_parts_of crontab_notation))).
  assert (Hsix : Str.split_ws six = firstn 6 (cron_parts_of crontab_notation))
    by (apply split_ws_join, Forall_firstn, cron_parts_of_words).
  assert (Hlen : List.length (Str.split_ws six) = 6%nat).
  { rewrite Hsix, length_firstn.
    pose proof (cron_parts_of_length crontab_notation). lia. }
  assert (Hparse : parse_crontab crontab_notation = parse_crontab six).
  { unfold parse_crontab.
    rewrite (parse_fields_firstn cron_attributes (cron_parts_of crontab_notation)).
    rewrite (parse_fields_firstn cron_attributes (cron_parts_of six)).
    change (List.length cron_attributes) with 6%nat.
    rewrite (cron_parts_of_long six) by lia.
    rewrite Hsix, firstn_firstn. reflexivity. }
  unfold get_next_datetime. rewrite Hparse. reflexivity.
Qed.

(** ** What every returned instant is *)

(** X1: every instant returned for a notation that parses is an existing date
    on a whole minute whose minute, hour, day, month and year are in the
    parsed sets and which passes the weekday and last filters. *)
Theorem returned_instant_satisfies (crontab_notation : string)
    (now_date t : datetime) (values : list (list Z))
    (last_day last_weekday : bool) :
  parse_crontab crontab_notation = Ok (values, last_day, last_weekday) ->
  get_next_datetime crontab_notation now_date = Some (Ok (Some t)) ->
  satisfies values last_day last_weekday t = true
  /\ on_minute t = true /\ valid_datetime t = true.
Proof. apply get_next_datetime_satisfies. Qed.

(** The first Monday at noon after 2021-06-15 is 2021-06-21. *)
Lemma returned_instant_satisfies_witness :
  satisfies [[0]; [12]; range_incl 1 31; range_incl 1 12; [1];
             range_incl 1970 2099] false false (naive 2021 6 21 12 0 0 0)
  = true.
Proof.
  refine (proj1 (returned_instant_satisfies "0 12 * * mon"
                   (naive 2021 6 15 10 15 30 0) (naive 2021 6 21 12 0 0 0)
                   _ false false _ _)).
  - vm_compute. reflexivity.
  - vm_compute. reflexivity.
Defined.





(** ** The zone of the result *)

Section Zones.

Variable values : list (list Z).
Variables last_day last_weekday : bool.

Lemma calculate_date_tzinfo (d t : datetime) :
  calculate_date values last_day last_weekday (Some d) = Some (Ok (Some t)) ->
  tzinfo t = tzinfo d.
Proof.
  unfold calculate_date.
  set (tz := match tzinfo d with Some z => z | None => UTC end).
  destruct (retry_loop values last_day last_weekday (fuel_of d) tz d)
    as [[[r|]|e]|] eqn:Hloop; try discriminate.
  intros H. injection H as <-.
  destruct (retry_loop_inv values last_day last_weekday (fun _ => True) tz
              (fun _ _ _ _ _ _ => I) _ d _ I Hloop) as (d0 & _ & Ha).
  apply attempt_Carried in Ha as [Hc _].
  apply carry_fields_Carried in Hc as (_ & _ & _ & _ & Htz & _).
  subst tz. destruct (tzinfo d); [exact Htz | reflexivity].
Qed.

Lemma calculate_all_tzinfo (tz : option timezone) (ds : list datetime) :
  (forall d, In d ds -> tz = None -> tzinfo d = None) ->
  forall rs t,
    calculate_all values last_day last_weekday tz ds = Some (Ok rs) ->
    In t (somes rs) -> tzinfo t = tz.
Proof.
  induction ds as [|d ds IH]; intros Hds rs t H Hin.
  - injection H as <-. contradiction.
  - cbn [calculate_all] in H.
    destruct (match tz with Some z => localize z d | None => Some d end)
      as [d0|] eqn:Hloc; [|discriminate].
    destruct (calculate_date values last_day last_weekday (Some d0))
      as [[r|e]|] eqn:Hd; try discriminate.
    destruct (calculate_all values last_day last_weekday tz ds)
      as [[rs'|e]|] eqn:Hrest; try discriminate.
    injection H as <-.
    assert (Htail : forall x, In x ds -> tz = None -> tzinfo x = None)
      by (intros x Hx; apply Hds; right; exact Hx).
    destruct r as [r|]; [destruct Hin as [<-|Hin]|];
      try (eapply IH; [exact Htail | reflexivity | exact Hin]).
    rewrite (calculate_date_tzinfo d0 r Hd).
    destruct tz as [z|].
    + unfold localize in Hloc. destruct (tzinfo d); [discriminate|].
      injection Hloc as <-. reflexivity.
    + injection Hloc as <-. apply Hds; [left|]; reflexivity.
Qed.

End Zones.

Lemma seeds_tzinfo (now_date : datetime) (ds : list (option datetime)) :
  seeds now_date = Ok ds ->
  forall d, In d (somes ds) -> tzinfo now_date = None -> tzinfo d = None.
Proof.
  intros Hs d Hin Hnaive. unfold seeds in Hs.
  destruct (seed_if (minute now_date <? 60 - 1) _) as [o1|] eqn:E1;
    [|discriminate].
  destruct (seed_if (hour now_date <? 24 - 1) _) as [o2|] eqn:E2;
    [|discriminate].
  destruct (seed_if (day now_date <? _) _) as [o3|] eqn:E3; [|discriminate].
  destruct (seed_if (month now_date <? 12 - 1) _) as [o4|] eqn:E4;
    [|discriminate].
  cbn [bind] in Hs.
  destruct (new_datetime (year now_date + 1) 1 1 0 0) as [s5|] eqn:E5;
    [|discriminate].
  cbn [or_ValueError bind] in Hs. injection Hs as <-.
  apply In_somes in Hin.
  destruct Hin as [E|[E|[E|[E|[E|[E|[]]]]]]].
  - destruct (second now_date =? 0); [|discriminate].
    injection E as <-. exact Hnaive.
  - subst o1. apply seed_if_inv in E1 as (_ & -> & _). reflexivity.
  - subst o2. apply seed_if_inv in E2 as (_ & -> & _). reflexivity.
  - subst o3. apply seed_if_inv in E3 as (_ & -> & _). reflexivity.
  - subst o4. apply seed_if_inv in E4 as (_ & -> & _). reflexivity.
  - injection E as <-. apply new_datetime_inv in E5 as (-> & _). reflexivity.
Qed.

Lemma get_next_datetime_tzinfo (crontab_notation : string) (now_date t : datetime) :
  get_next_datetime crontab_notation now_date = Some (Ok (Some t)) ->
  tzinfo t = tzinfo now_date.
Proof.
  unfold get_next_datetime.
  destruct (parse_crontab crontab_notation) as [[[values ld] lw]|e];
    [|discriminate].
  destruct (seeds now_date) as [ds|e] eqn:Hseeds; [|discriminate].
  destruct (calculate_all values ld lw (tzinfo now_date) (somes ds))
    as [[rs|e]|] eqn:Hall; try discriminate.
  intros H. injection H as H. apply earliest_In in H.
  eapply calculate_all_tzinfo; [|exact Hall|exact H].
  intros d Hd Hnaive. eapply seeds_tzinfo; eassumption.
Qed.



(** ** The last flags *)

Lemma parse_crontab_both_flags (crontab_notation : string)
    (values : list (list Z)) (last_day last_weekday : bool) :
  parse_crontab crontab_notation = Ok (values, last_day, last_weekday) ->
  last_day = has_last_term (nth 2 (cron_parts_of crontab_notation) "")
  /\ last_weekday = has_last_term (nth 4 (cron_parts_of crontab_notation) "").
Proof.
  unfold parse_crontab.
  destruct (parse_fields cron_attributes (cron_parts_of crontab_notation)
              ([], false, false)) as [[[values' ld] lw]|e] eqn:Hf;
    [|discriminate].
  cbn [bind]. intros Hc.
  assert (ld = last_day /\ lw = last_weekday) as [<- <-].
  { unfold check_days in Hc.
    destruct (py_min (nth 2 values' [])); [|discriminate].
    cbn [or_ValueError bind] in Hc.
    destruct (28 <=? z); [destruct (existsb _ _)|]; split; congruence. }
  clear Hc.
  destruct (cron_parts_of crontab_notation)
    as [|f0 [|f1 [|f2 [|f3 [|f4 [|f5 fs]]]]]];
    unfold cron_attributes in Hf; cbn [parse_fields] in Hf;
    repeat match type of Hf with
      | context [parse_parts ?a ?ps ?av ?ld ?lw] =>
          let H := fresh "Hp" in
          destruct (parse_parts a ps av ld lw) as [[[? ?] ?]|?] eqn:H;
          cbn [bind] in Hf; [apply parse_parts_flags in H as [? ?] | discriminate]
      end;
    try discriminate.
  injection Hf as _ <- <-. subst. cbn. unfold has_last_term.
  rewrite !orb_false_r. split; reflexivity.
Qed.

(** X13: the two flags of a parsed notation: [last_day] says that a term of the
    day field starts with l, [last_weekday] that a term of the weekday
    field does; an l in any other field raises no flag. *)
Theorem parse_crontab_flags (crontab_notation : string)
    (values : list (list Z)) (last_day last_weekday : bool) :
  parse_crontab crontab_notation = Ok (values, last_day, last_weekday) ->
  last_day = has_last_term (nth 2 (cron_parts_of crontab_notation) "")
  /\ last_weekday = has_last_term (nth 4 (cron_parts_of crontab_notation) "").
Proof. apply parse_crontab_both_flags. Qed.

(** The last Friday: an l in the weekday field and none in the day field. *)
Lemma parse_crontab_flags_witness :
  false = has_last_term (nth 2 (cron_parts_of "0 0 * * lfri") "")
  /\ true = has_last_term (nth 4 (cron_parts_of "0 0 * * lfri") "").
Proof.
  refine (parse_crontab_flags "0 0 * * lfri"
            [[0]; [0]; range_incl 1 31; range_incl 1 12; [5];
             range_incl 1970 2099] false true _).
  vm_compute. reflexivity.
Defined.

Lemma isoweekday_next_week (y m d : Z) :
  isoweekday_ymd y m (d + 7) = isoweekday_ymd y m d.
Proof.
  unfold isoweekday_ymd, ymd2ord.
  replace (days_before_year y + days_before_month y m + (d + 7))
    with (days_before_year y + days_before_month y m + d + 1 * 7) by lia.
  rewrite Z_mod_plus_full. reflexivity.
Qed.

Lemma In_range_incl (lo hi v : Z) :
  In v (range_incl lo hi) <-> lo <= v <= hi.
Proof.
  unfold range_incl. rewrite in_map_iff. split.
  - intros (k & <- & Hk). apply in_seq in Hk. lia.
  - intros H. exists (Z.to_nat (v - lo)). split; [lia|].
    apply in_seq. lia.
Qed.

(** X14: when a term of the weekday field starts with l, every returned instant
    falls on an admissible weekday and in the last seven days of its month:
    it is the last occurrence of that weekday in the month. *)
Theorem last_weekday_of_month (crontab_notation : string)
    (now_date t : datetime) (values : list (list Z))
    (last_day last_weekday : bool) :
  parse_crontab crontab_notation = Ok (values, last_day, last_weekday) ->
  has_last_term (nth 4 (cron_parts_of crontab_notation) "") = true ->
  get_next_datetime crontab_notation now_date = Some (Ok (Some t)) ->
  In (isoweekday t mod 7) (nth 4 values [])
  /\ monthrange (year t) (month t) - 7 < day t <= monthrange (year t) (month t).
Proof.
  intros Hparse Hl Hget.
  destruct (parse_crontab_both_flags _ _ _ _ Hparse) as [_ Hlw].
  rewrite Hl in Hlw. subst last_weekday.
  destruct (get_next_datetime_satisfies _ _ _ _ _ _ Hparse Hget)
    as (Hs & _ & Hv).
  unfold satisfies in Hs. apply andb_true_iff in Hs as [_ Hf].
  unfold passes_filters in Hf. apply andb_true_iff in Hf as [Hf Hlast].
  apply andb_true_iff in Hf as [Hwd _].
  split.
  - apply existsb_exists in Hwd as (x & Hx & E). apply Z.eqb_eq in E.
    subst x. exact Hx.
  - unfold valid_datetime in Hv. apply andb_true_iff in Hv as [Hd _].
    apply valid_date_iff in Hd as (_ & _ & Hd).
    split; [|lia].
    destruct (Z_lt_le_dec (monthrange (year t) (month t) - 7) (day t))
      as [Hlt|Hge]; [exact Hlt|].
    exfalso. cbn [negb orb] in Hlast. unfold is_last_weekday in Hlast.
    apply negb_true_iff in Hlast.
    assert (Hex : existsb
              (fun i => isoweekday_ymd (year t) (month t) i =? isoweekday t)
              (range_incl (day t + 1) (monthrange (year t) (month t))) = true).
    { apply existsb_exists. exists (day t + 7). split.
      - apply In_range_incl. lia.
      - apply Z.eqb_eq. apply isoweekday_next_week. }
    congruence.
Qed.

(** The last Friday of June 2021 is the 25th. *)
Lemma last_weekday_of_month_witness :
  In (isoweekday (naive 2021 6 25 0 0 0 0) mod 7) [5]
  /\ monthrange 2021 6 - 7 < 25 <= monthrange 2021 6.
Proof.
  refine (last_weekday_of_month "0 0 * * lfri" (naive 2021 6 15 10 15 30 0)
            (naive 2021 6 25 0 0 0 0)
            [[0]; [0]; range_incl 1 31; range_incl 1 12; [5];
             range_incl 1970 2099] false true _ _ _).
  - vm_compute. reflexivity.
  - reflexivity.
  - vm_compute. reflexivity.
Defined.

(** ** The parsed sets *)

Lemma filter_mod_incl (xs : list Z) (b r : Z) (ys : list Z) :
  filter_mod xs b r = Ok ys -> incl ys xs.
Proof.
  unfold filter_mod. destruct (b =? 0).
  - destruct xs; [|discriminate]. intros H. injection H as <-.
    apply incl_refl.
  - intros H. injection H as <-. apply incl_filter.
Qed.

Lemma part_range_incl (aliases : list (string * Z)) (part : string)
    (pv vs : list Z) (last : bool) :
  part_range aliases part pv = Ok (vs, last) -> incl vs pv.
Proof.
  unfold part_range.
  destruct (Str.contains "-" part);
    [|intros H; injection H as <- _; apply incl_refl].
  destruct (unpack2 (Str.split "-" part)) as [[a b]|e]; [|discriminate].
  cbn [bind].
  destruct (if Str.contains "/" b then _ else _) as [b'|e]; [|discriminate].
  cbn [bind]. destruct (Str.first a) as [c|e]; [|discriminate].
  cbn [bind]. destruct (Ascii.eqb c "l").
  - destruct (int_alias aliases (Str.tail a)); [|discriminate].
    cbn [or_ValueError bind].
    destruct (int_alias aliases b'); [|discriminate].
    cbn [or_ValueError bind]. intros H. injection H as <- _.
    apply incl_filter.
  - destruct (int_alias aliases a); [|discriminate].
    cbn [or_ValueError bind].
    destruct (int_alias aliases b'); [|discriminate].
    cbn [or_ValueError bind]. intros H. injection H as <- _.
    apply incl_filter.
Qed.

Lemma part_step_incl (aliases : list (string * Z)) (part : string)
    (pv vs : list Z) :
  part_step aliases part pv = Ok vs -> incl vs pv.
Proof.
  unfold part_step.
  destruct (Str.contains "/" part);
    [|intros H; injection H as <-; apply incl_refl].
  destruct (unpack2 (Str.split "/" part)) as [[a b]|e]; [|discriminate].
  cbn [bind]. unfold catch_ValueError.
  destruct (int_alias aliases a) as [a'|]; cbn [or_ValueError bind].
  - destruct (Str.int b) as [b'|]; cbn [or_ValueError bind];
      [|discriminate].
    destruct (filter_mod pv b' (a' mod b')) as [ys|[]] eqn:E;
      try discriminate.
    + intros H. injection H as <-. eapply filter_mod_incl; eassumption.
    + exfalso. unfold filter_mod in E.
      destruct (b' =? 0); [destruct pv|]; discriminate.
  - destruct (Str.int b) as [b'|]; cbn [or_ValueError bind];
      [|discriminate].
    destruct (String.eqb a "*" || String.eqb a "?").
    + apply filter_mod_incl.
    + destruct (unpack2 (Str.split "-" part)) as [[a0 x]|e]; [|discriminate].
      cbn [bind].
      destruct (int_alias aliases a0); [|discriminate].
      cbn [or_ValueError bind]. apply filter_mod_incl.
Qed.

Lemma part_single_incl (aliases : list (string * Z)) (part : string)
    (pv vs : list Z) (l0 last : bool) :
  part_single aliases part pv l0 = Ok (vs, last) -> incl vs pv.
Proof.
  unfold part_single. destruct (Str.first part) as [c|e]; [|discriminate].
  cbn [bind]. destruct (Ascii.eqb "l" c).
  - destruct (int_alias aliases (Str.tail part)); intros H;
      injection H as <- _; [apply incl_filter | apply incl_refl].
  - destruct (int_alias aliases part); intros H;
      injection H as <- _; [apply incl_filter | apply incl_refl].
Qed.

(** A term only ever narrows the range of its field. *)
Lemma parse_part_in_range (attr : cron_attr) (part : string) (vs : list Z)
    (last : bool) :
  parse_part attr part = Ok (vs, last) ->
  forall v, In v vs -> fst (snd (fst attr)) <= v <= snd (snd (fst attr)).
Proof.
  destruct attr as [[t [lo hi]] aliases]. unfold parse_part. cbn [fst snd].
  destruct (part_range aliases part (range_incl lo hi)) as [[pv l1]|e] eqn:Hr;
    [|discriminate].
  cbn [bind].
  destruct (part_step aliases part pv) as [pv2|e] eqn:Hs; [|discriminate].
  cbn [bind]. intros Hp v Hv. apply In_range_incl.
  apply (part_range_incl _ _ _ _ _ Hr), (part_step_incl _ _ _ _ Hs),
    (part_single_incl _ _ _ _ _ _ Hp), Hv.
Qed.

Lemma parse_parts_values (attr : cron_attr) (parts : list string) :
  forall av ld lw av' ld' lw',
    parse_parts attr parts av ld lw = Ok (av', ld', lw') ->
    (forall v, In v av' ->
       In v av \/ fst (snd (fst attr)) <= v <= snd (snd (fst attr)))
    /\ (av <> [] \/ parts <> [] -> av' <> []).
Proof.
  induction parts as [|part parts IH]; intros av ld lw av' ld' lw' H.
  - injection H as <- _ _. split; [auto|]. intros [Ha|Hp]; [exact Ha|].
    contradiction.
  - cbn [parse_parts] in H.
    destruct (parse_part attr part) as [[[|v vs] last]|e] eqn:Hp;
      cbn [bind] in H; try discriminate.
    apply IH in H as [Hin Hne]. split.
    + intros x Hx. destruct (Hin x Hx) as [Hx'|Hx']; [|auto].
      apply in_app_or in Hx' as [Hx'|Hx']; [auto|].
      right. eapply parse_part_in_range; eassumption.
    + intros _. apply Hne. left. destruct av; discriminate.
Qed.

Lemma split_by_nonnil (p : ascii -> bool) (s : string) :
  Str.split_by p s <> [].
Proof.
  destruct s as [|c s]; simpl; [discriminate|].
  destruct (p c); [discriminate|].
  destruct (Str.split_by p s); discriminate.
Qed.

Lemma parse_fields_values (attrs : list cron_attr) :
  forall cron_parts values ld lw values' ld' lw',
    parse_fields attrs cron_parts (values, ld, lw) = Ok (values', ld', lw') ->
    exists new, values' = (values ++ new)%list /\ Forall2 field_ok attrs new.
Proof.
  induction attrs as [|attr attrs IH];
    intros cron_parts values ld lw values' ld' lw' H.
  - injection H as <- _ _. exists []. rewrite app_nil_r. split; constructor.
  - destruct cron_parts as [|f cron_parts]; [discriminate|].
    cbn [parse_fields] in H.
    destruct (parse_parts attr (Str.split "," (Str.lower f)) [] ld lw)
      as [[[av ld1] lw1]|e] eqn:Hp; cbn [bind] in H; [|discriminate].
    apply IH in H as (new & -> & Hnew).
    exists (av :: new). split; [rewrite <- app_assoc; reflexivity|].
    constructor; [|exact Hnew].
    apply parse_parts_values in Hp as [Hin Hne]. split.
    + apply Hne. right. apply split_by_nonnil.
    + intros v Hv. destruct (Hin v Hv) as [[]|Hr]. exact Hr.
Qed.

Lemma parse_crontab_field_ok (crontab_notation : string)
    (values : list (list Z)) (last_day last_weekday : bool) :
  parse_crontab crontab_notation = Ok (values, last_day, last_weekday) ->
  Forall2 field_ok cron_attributes values.
Proof.
  unfold parse_crontab.
  destruct (parse_fields cron_attributes (cron_parts_of crontab_notation)
              ([], false, false)) as [[[values' ld] lw]|e] eqn:Hf;
    [|discriminate].
  cbn [bind]. intros Hc.
  assert (values' = values).
  { unfold check_days in Hc.
    destruct (py_min (nth 2 values' [])); [|discriminate].
    cbn [or_ValueError bind] in Hc.
    destruct (28 <=? z); [destruct (existsb _ _)|]; congruence. }
  subst values'.
  apply parse_fields_values in Hf as (new & -> & Hnew). exact Hnew.
Qed.

(** X11: a notation that parses gives six sets, one per field, each with at
    least one value and all of its values in the range of the field. *)
Theorem parsed_sets_in_range (crontab_notation : string)
    (values : list (list Z)) (last_day last_weekday : bool) :
  parse_crontab crontab_notation = Ok (values, last_day, last_weekday) ->
  Forall2 field_ok cron_attributes values.
Proof. apply parse_crontab_field_ok. Qed.

(** The sets of "*/15 9-17 * * mon-fri". *)
Lemma parsed_sets_in_range_witness :
  Forall2 field_ok cron_attributes
    [[0; 15; 30; 45]; range_incl 9 17; range_incl 1 31; range_incl 1 12;
     range_incl 1 5; range_incl 1970 2099].
Proof.
  refine (parsed_sets_in_range "*/15 9-17 * * mon-fri" _ false false _).
  vm_compute. reflexivity.
Defined.

(** The six sets of a parsed notation, by name. *)
Lemma parsed_sets_inv (crontab_notation : string)
    (values : list (list Z)) (last_day last_weekday : bool) :
  parse_crontab crontab_notation = Ok (values, last_day, last_weekday) ->
  exists mi h d m wd y,
    values = [mi; h; d; m; wd; y]
    /\ (forall v, In v d -> 1 <= v <= 31)
    /\ (forall v, In v m -> 1 <= v <= 12)
    /\ (forall v, In v y -> 1970 <= v <= 2099).
Proof.
  intros H. apply parse_crontab_field_ok in H. unfold cron_attributes in H.
  repeat match goal with
         | H : Forall2 _ (_ :: _) _ |- _ => inversion H; subst; clear H
         | H : Forall2 _ [] _ |- _ => inversion H; subst; clear H
         end.
  repeat match goal with
         | H : field_ok _ _ |- _ => destruct H as [_ H]; cbn [fst snd] in H
         end.
  do 6 eexists. split; [reflexivity|]. auto.
Qed.

(** ** The horizon *)

(** X6: no returned instant is outside the years 1970 to 2099, whatever the
    notation and the reference. *)
Theorem result_within_horizon (crontab_notation : string)
    (now_date t : datetime) :
  get_next_datetime crontab_notation now_date = Some (Ok (Some t)) ->
  1970 <= year t <= 2099.
Proof.
  intros Hget.
  destruct (parse_crontab crontab_notation) as [[[values ld] lw]|e] eqn:Hparse;
    [|unfold get_next_datetime in Hget; rewrite Hparse in Hget; discriminate].
  destruct (get_next_datetime_satisfies _ _ _ _ _ _ Hparse Hget) as (Hs & _).
  destruct (parsed_sets_inv _ _ _ _ Hparse)
    as (mi & h & d & m & wd & y & -> & _ & _ & Hy).
  unfold satisfies in Hs. apply andb_true_iff in Hs as [Hs _].
  apply andb_true_iff in Hs as [_ Hyear]. cbn [nth] in Hyear.
  apply existsb_exists in Hyear as (x & Hx & E). apply Z.eqb_eq in E.
  subst x. apply Hy. exact Hx.
Qed.

(** Asked in the year 1000, the first minute of the horizon. *)
Lemma result_within_horizon_witness : 1970 <= 1970 <= 2099.
Proof.
  apply (result_within_horizon "* * * * *" (naive 1000 1 1 0 0 0 0)
           (naive 1970 1 1 0 0 0 0)).
  vm_compute. reflexivity.
Defined.



(** ** Exceptions after parsing *)

Section NoRaise.

Variable values : list (list Z).
Variables last_day last_weekday : bool.

Lemma calculate_date_no_raise (d : datetime) :
  has_next_day d = true ->
  exists r, calculate_date values last_day last_weekday (Some d) = Some (Ok r).
Proof.
  intros Hn. unfold calculate_date.
  set (tz := match tzinfo d with Some z => z | None => UTC end).
  destruct (retry_loop_total values last_day last_weekday tz d) as [r Hr].
  rewrite Hr.
  destruct (retry_loop_inv values last_day last_weekday
              (fun x => has_next_day x = true) tz)
    with (fuel := fuel_of d) (d := d) (r := r) as (d0 & Hn0 & Hout);
    [|exact Hn|exact Hr|].
  - intros x x' _ _ Hnext Hlt.
    destruct (next_day_year tz x x' Hnext) as (_ & Hyr & _).
    apply has_next_day_year. lia.
  - destruct r as [[t|]|e]; eauto.
    exfalso. destruct Hout as [_ Hraise].
    destruct (next_day_exists tz d0 Hn0) as [d' Hd']. congruence.
Qed.

Lemma calculate_all_no_raise (tz : option timezone) (ds : list datetime) :
  (forall d, In d ds ->
             has_next_day d = true /\ (tz = None \/ tzinfo d = None)) ->
  exists rs, calculate_all values last_day last_weekday tz ds = Some (Ok rs).
Proof.
  induction ds as [|d ds IH]; intros H; [exists []; reflexivity|].
  destruct IH as (rs & Hrs); [intros x Hx; apply H; right; exact Hx|].
  destruct (H d (or_introl eq_refl)) as (Hn & Htz).
  cbn [calculate_all].
  assert (Hloc : exists d0,
             match tz with Some z => localize z d | None => Some d end
             = Some d0 /\ has_next_day d0 = true).
  { destruct tz as [z|]; [|eauto].
    destruct Htz as [Htz|Htz]; [discriminate|].
    unfold localize. rewrite Htz. eexists. split; [reflexivity|]. exact Hn. }
  destruct Hloc as (d0 & -> & Hn0).
  destruct (calculate_date_no_raise d0 Hn0) as [r ->]. rewrite Hrs. eauto.
Qed.

End NoRaise.



Lemma seeds_shape (now_date : datetime) (ds : list (option datetime)) :
  seeds now_date = Ok ds ->
  exists rest,
    ds = (if second now_date =? 0 then Some now_date else None) :: rest.
Proof.
  unfold seeds.
  destruct (seed_if (minute now_date <? 60 - 1) _) as [o1|]; [|discriminate].
  destruct (seed_if (hour now_date <? 24 - 1) _) as [o2|]; [|discriminate].
  destruct (seed_if (day now_date <? _) _) as [o3|]; [|discriminate].
  destruct (seed_if (month now_date <? 12 - 1) _) as [o4|]; [|discriminate].
  cbn [bind].
  destruct (new_datetime (year now_date + 1) 1 1 0 0) as [s5|]; [|discriminate].
  cbn [or_ValueError bind]. intros H. injection H as <-. eauto.
Qed.

(** X9: in the year 9999 every valid reference makes the call raise
    [ValueError], whatever notation has parsed: the seed of the following
    year cannot be built. *)
Theorem last_year_raises (crontab_notation : string) (now_date : datetime)
    (values : list (list Z)) (last_day last_weekday : bool) :
  parse_crontab crontab_notation = Ok (values, last_day, last_weekday) ->
  valid_datetime now_date = true ->
  year now_date = 9999 ->
  get_next_datetime crontab_notation now_date = Some (Raise ValueError).
Proof.
  intros Hparse Hv Hy. unfold get_next_datetime. rewrite Hparse.
  assert (Hseeds : seeds now_date = Raise ValueError).
  { pose proof (valid_datetime_bounds now_date Hv) as Hb.
    unfold valid_datetime in Hv. apply andb_true_iff in Hv as [Hd Ht].
    pose proof Hd as Hd'. apply valid_date_iff in Hd' as (_ & Hm & Hdy).
    unfold seeds.
    destruct (seed_if_exists (minute now_date <? 60 - 1) (year now_date)
                (month now_date) (day now_date) (hour now_date)
                (minute now_date + 1)) as (o1 & -> & _).
    { intros E. apply Z.ltb_lt in E. split; [exact Hd|].
      apply valid_time_iff. lia. }
    destruct (seed_if_exists (hour now_date <? 24 - 1) (year now_date)
                (month now_date) (day now_date) (hour now_date + 1) 0)
      as (o2 & -> & _).
    { intros E. apply Z.ltb_lt in E. split; [exact Hd|].
      apply valid_time_iff. lia. }
    destruct (seed_if_exists
                (day now_date <? monthrange (year now_date) (month now_date) - 1)
                (year now_date) (month now_date) (day now_date + 1) 0 0)
      as (o3 & -> & _).
    { intros E. apply Z.ltb_lt in E. split; [|reflexivity].
      apply valid_date_iff. lia. }
    destruct (seed_if_exists (month now_date <? 12 - 1) (year now_date)
                (month now_date + 1) 1 0 0) as (o4 & -> & _).
    { intros E. apply Z.ltb_lt in E. split; [|reflexivity].
      apply valid_date_iff.
      pose proof (monthrange_bounds (year now_date) (month now_date + 1)).
      lia. }
    cbn [bind]. rewrite Hy. reflexivity. }
  rewrite Hseeds. reflexivity.
Qed.

(** The last minute of the year 9999. *)
Lemma last_year_raises_witness :
  get_next_datetime "* * * * *" (naive 9999 12 31 23 59 0 0)
  = Some (Raise ValueError).
Proof.
  refine (last_year_raises "* * * * *" (naive 9999 12 31 23 59 0 0)
            _ false false _ _ _).
  - vm_compute. reflexivity.
  - reflexivity.
  - reflexivity.
Defined.

(** X10: an aware reference whose seconds are 0 makes the call raise
    [ValueError] for every notation that parses: the reference is its own
    first seed and is handed, zone and all, to [localize]. *)
Theorem aware_whole_minute_raises (crontab_notation : string)
    (now_date : datetime) (z : timezone) (values : list (list Z))
    (last_day last_weekday : bool) :
  parse_crontab crontab_notation = Ok (values, last_day, last_weekday) ->
  valid_datetime now_date = true ->
  year now_date <= 9998 ->
  tzinfo now_date = Some z ->
  second now_date = 0 ->
  get_next_datetime crontab_notation now_date = Some (Raise ValueError).
Proof.
  intros Hparse Hv Hy Hz Hs. unfold get_next_datetime. rewrite Hparse.
  destruct (seeds_exist now_date Hv Hy) as (ds & Hseeds & _).
  rewrite Hseeds. destruct (seeds_shape now_date ds Hseeds) as [rest ->].
  apply Z.eqb_eq in Hs. rewrite Hs, Hz. cbn [somes calculate_all].
  unfold localize. rewrite Hz. reflexivity.
Qed.

(** Noon in UTC, on the minute. *)
Lemma aware_whole_minute_raises_witness :
  get_next_datetime "0 0 * * *" (mk_datetime 2021 6 15 12 0 0 0 (Some UTC))
  = Some (Raise ValueError).
Proof.
  refine (aware_whole_minute_raises "0 0 * * *"
            (mk_datetime 2021 6 15 12 0 0 0 (Some UTC)) UTC _ false false
            _ _ _ _ _).
  - vm_compute. reflexivity.
  - reflexivity.
  - simpl. lia.
  - reflexivity.
  - reflexivity.
Defined.

(** ** An occurrence asked about itself *)

Lemma fold_min_le (xs : list Z) :
  forall x y, In y (x :: xs) -> fold_left Z.min xs x <= y.
Proof.
  induction xs as [|z xs IH]; intros x y Hin; simpl.
  - destruct Hin as [->|[]]. lia.
  - destruct Hin as [->|[->|Hin]].
    + pose proof (IH (Z.min y z) (Z.min y z) (or_introl eq_refl)). lia.
    + pose proof (IH (Z.min x y) (Z.min x y) (or_introl eq_refl)). lia.
    + apply IH. right. exact Hin.
Qed.

(** The least admissible value from [m] on is [m] itself when [m] is
    admissible. *)
Lemma py_min_filter_self (m : Z) (l : list Z) :
  In m l -> py_min (filter (fun v => m <=? v) l) = Some m.
Proof.
  intros Hin.
  assert (Hm : In m (filter (fun v => m <=? v) l))
    by (apply filter_In; split; [exact Hin | apply Z.leb_refl]).
  destruct (py_min (filter (fun v => m <=? v) l)) as [v|] eqn:E.
  - pose proof (py_min_filter _ _ _ E) as [_ Hge]. apply Z.leb_le in Hge.
    unfold py_min in E.
    destruct (filter (fun v => m <=? v) l) as [|x xs]; [discriminate|].
    injection E as <-. pose proof (fold_min_le xs x m Hm). f_equal. lia.
  - unfold py_min in E.
    destruct (filter (fun v => m <=? v) l); [contradiction | discriminate].
Qed.

Lemma mem_true_In (x : Z) (l : list Z) : mem x l = true -> In x l.
Proof.
  intros H. apply existsb_exists in H as (y & Hy & E).
  apply Z.eqb_eq in E. subst y. exact Hy.
Qed.

Lemma min_datetime_head (d : datetime) (l : list datetime) :
  (forall x, In x l -> dt_ltb x d = false) -> min_datetime d l = d.
Proof.
  unfold min_datetime. induction l as [|x l IH]; intros H; [reflexivity|].
  simpl. rewrite (H x (or_introl eq_refl)).
  apply IH. intros y Hy. apply H. right. exact Hy.
Qed.

Section OwnOccurrence.

Variable values : list (list Z).
Variables last_day last_weekday : bool.

(** From a date whose five fields are admissible the field loop rebuilds
    that very date. *)
Lemma carry_fields_self (tz : timezone) (d : datetime) :
  valid_datetime d = true ->
  In (minute d) (nth 0 values []) -> In (hour d) (nth 1 values []) ->
  In (day d) (nth 2 values []) -> In (month d) (nth 3 values []) ->
  In (year d) (nth 5 values []) ->
  carry_fields values tz 0 cron_attributes d
  = Carried (mk_datetime (year d) (month d) (day d) (hour d) (minute d) 0 0
               (Some tz)).
Proof.
  intros Hv Hmi Hh Hd Hm Hy.
  unfold valid_datetime in Hv. apply andb_true_iff in Hv as [Hvd Hvt].
  assert (Hvt0 : valid_time (hour d) (minute d) 0 0 = true).
  { apply valid_time_iff in Hvt. apply valid_time_iff. lia. }
  unfold cron_attributes. cbn [carry_fields fst cron_type_eqb getattr].
  rewrite (py_min_filter_self _ _ Hmi).
  unfold rebuild at 1. cbn [cron_type_eqb getattr].
  rewrite (new_datetime_valid _ _ _ _ _ Hvd Hvt0).
  unfold localize at 1. cbn [tzinfo year month day hour minute second microsecond].
  rewrite (py_min_filter_self _ _ Hh).
  unfold rebuild at 1.
  cbn [cron_type_eqb getattr year month day hour minute].
  rewrite (new_datetime_valid _ _ _ _ _ Hvd Hvt0).
  unfold localize at 1. cbn [tzinfo year month day hour minute second microsecond].
  rewrite (py_min_filter_self _ _ Hd).
  unfold rebuild at 1.
  cbn [cron_type_eqb getattr year month day hour minute].
  rewrite (new_datetime_valid _ _ _ _ _ Hvd Hvt0).
  unfold localize at 1. cbn [tzinfo year month day hour minute second microsecond].
  rewrite (py_min_filter_self _ _ Hm).
  unfold rebuild at 1.
  cbn [cron_type_eqb getattr year month day hour minute].
  rewrite (new_datetime_valid _ _ _ _ _ Hvd Hvt0).
  unfold localize at 1. cbn [tzinfo year month day hour minute second microsecond].
  rewrite (py_min_filter_self _ _ Hy).
  unfold rebuild at 1.
  cbn [cron_type_eqb getattr year month day hour minute].
  rewrite (new_datetime_valid _ _ _ _ _ Hvd Hvt0).
  unfold localize at 1. cbn [tzinfo year month day hour minute second microsecond].
  reflexivity.
Qed.

Lemma calculate_date_self (t : datetime) :
  tzinfo t = None -> valid_datetime t = true -> on_minute t = true ->
  satisfies values last_day last_weekday t = true ->
  calculate_date values last_day last_weekday (Some t) = Some (Ok (Some t)).
Proof.
  intros Hnaive Hv Hmin Hs.
  unfold satisfies in Hs. repeat (apply andb_true_iff in Hs as [Hs ?]).
  unfold calculate_date, fuel_of. rewrite Hnaive. cbn [retry_loop].
  unfold attempt.
  rewrite (carry_fields_self UTC t Hv) by (apply mem_true_In; assumption).
  match goal with
  | H : passes_filters _ _ _ t = true |- _ =>
      change (passes_filters values last_day last_weekday
                (mk_datetime (year t) (month t) (day t) (hour t) (minute t)
                   0 0 (Some UTC)))
        with (passes_filters values last_day last_weekday t);
      rewrite H
  end.
  unfold naive_copy. cbn [year month day hour minute second microsecond].
  unfold on_minute in Hmin. apply andb_true_iff in Hmin as [E1 E2].
  apply Z.eqb_eq in E1. apply Z.eqb_eq in E2.
  destruct t. cbn in *. subst. reflexivity.
Qed.

End OwnOccurrence.

Lemma get_next_datetime_self (crontab_notation : string) (t : datetime)
    (values : list (list Z)) (last_day last_weekday : bool) :
  parse_crontab crontab_notation = Ok (values, last_day, last_weekday) ->
  tzinfo t = None -> valid_datetime t = true -> on_minute t = true ->
  satisfies values last_day last_weekday t = true ->
  get_next_datetime crontab_notation t = Some (Ok (Some t)).
Proof.
  intros Hparse Hnaive Hv Hmin Hs.
  assert (Hy : year t <= 9998).
  { destruct (parsed_sets_inv _ _ _ _ Hparse)
      as (mi & h & d & m & wd & y & -> & _ & _ & Hyears).
    unfold satisfies in Hs. apply andb_true_iff in Hs as [Hs _].
    apply andb_true_iff in Hs as [_ Hyear]. cbn [nth] in Hyear.
    apply mem_true_In, Hyears in Hyear. lia. }
  unfold get_next_datetime. rewrite Hparse.
  destruct (seeds_exist t Hv Hy) as (ds & Hseeds & Hds).
  rewrite Hseeds. destruct (seeds_shape t ds Hseeds) as [rest ->].
  pose proof (seeds_after t _ Hv Hseeds) as Hafter.
  pose proof Hmin as Hmin'. unfold on_minute in Hmin'.
  apply andb_true_iff in Hmin' as [Hsec Hus]. rewrite Hsec in *.
  cbn [somes] in *. rewrite Hnaive. cbn [calculate_all].
  rewrite (calculate_date_self values last_day last_weekday t Hnaive Hv Hmin Hs).
  destruct (calculate_all_no_raise values last_day last_weekday None
              (somes rest)) as (rs & Hrs).
  { intros x Hx. destruct (Hds x (or_intror Hx)) as (_ & Hn & _). auto. }
  rewrite Hrs. unfold earliest. cbn [somes]. do 3 f_equal.
  apply min_datetime_head. intros x Hx.
  destruct (calculate_all_satisfies values last_day last_weekday None
              (somes rest) rs x Hrs Hx) as (_ & Hxm & Hxv).
  assert (Hkey : minute_key t < minute_key x
                 \/ (minute_key t <= minute_key x /\ second t = 0)).
  { apply (calculate_all_not_before values last_day last_weekday t None
             (somes rest)) with (rs := rs); [|exact Hrs|exact Hx].
    intros d Hd. apply Hafter. right. exact Hd. }
  apply Z.eqb_eq in Hsec. apply Z.eqb_eq in Hus.
  unfold on_minute in Hxm. apply andb_true_iff in Hxm as [Hxs Hxus].
  apply Z.eqb_eq in Hxs. apply Z.eqb_eq in Hxus.
  apply dt_ltb_false; try assumption; lia.
Qed.

(** X4: a naive instant on a whole minute at which the schedule holds is
    returned when it is itself the reference.  So the instant returned for
    a naive reference, given back as the reference, is returned again. *)
Theorem occurrence_is_its_own_next (crontab_notation : string)
    (values : list (list Z)) (last_day last_weekday : bool) :
  parse_crontab crontab_notation = Ok (values, last_day, last_weekday) ->
  (forall t,
      tzinfo t = None -> valid_datetime t = true -> on_minute t = true ->
      satisfies values last_day last_weekday t = true ->
      get_next_datetime crontab_notation t = Some (Ok (Some t)))
  /\ (forall now_date t,
        tzinfo now_date = None ->
        get_next_datetime crontab_notation now_date = Some (Ok (Some t)) ->
        get_next_datetime crontab_notation t = Some (Ok (Some t))).
Proof.
  intros Hparse. split.
  - intros t. apply get_next_datetime_self. exact Hparse.
  - intros now t Hnaive Hget.
    destruct (get_next_datetime_satisfies _ _ _ _ _ _ Hparse Hget)
      as (Hs & Hmin & Hv).
    apply (get_next_datetime_self _ _ _ _ _ Hparse); try assumption.
    rewrite <- Hnaive. apply get_next_datetime_tzinfo with crontab_notation.
    exact Hget.
Qed.

(** ** What each kind of term contributes *)

Lemma contains_app (c : ascii) (x y : string) :
  Str.contains c (x ++ y) = Str.contains c x || Str.contains c y.
Proof.
  induction x as [|d x IH]; simpl; [reflexivity|].
  rewrite IH, orb_assoc. reflexivity.
Qed.

Lemma append_assoc (x y z : string) :
  ((x ++ y) ++ z = x ++ (y ++ z))%string.
Proof. induction x as [|c x IH]; simpl; [reflexivity | rewrite IH; reflexivity]. Qed.

Lemma none_of_app (p : ascii -> bool) (x y : string) :
  none_of p (x ++ y) = none_of p x && none_of p y.
Proof.
  induction x as [|d x IH]; simpl; [reflexivity|].
  rewrite IH, andb_assoc. reflexivity.
Qed.

Lemma dict_get_In {V : Type} (d : list (string * V)) (k : string) (v : V) :
  dict_get d k = Some v -> In (k, v) d.
Proof.
  induction d as [|[k' v'] d IH]; simpl; [discriminate|].
  destruct (String.eqb_spec k k') as [->|_].
  - intros H. injection H as <-. left. reflexivity.
  - intros H. right. apply IH. exact H.
Qed.

(** The names of the months and weekdays hold neither a minus sign nor a
    slash. *)
Lemma alias_name_plain (attr : cron_attr) (s : string) (v : Z) :
  In attr cron_attributes -> dict_get (snd attr) s = Some v ->
  Str.contains "-" s = false /\ Str.contains "/" s = false.
Proof.
  intros Hattr Hget. apply dict_get_In in Hget.
  unfold cron_attributes in Hattr. simpl in Hattr.
  repeat (destruct Hattr as [<-|Hattr];
          [simpl in Hget;
           repeat (destruct Hget as [Hget|Hget];
                   [injection Hget as <- _; split; reflexivity|]);
           contradiction|]).
  contradiction.
Qed.

(** The characters of an unsigned integer text are digits and
    underscores. *)
Lemma int_digits_chars (len : nat) :
  forall s acc n,
    (String.length s <= len)%nat -> Str.int_digits acc s = Some n ->
    forall c, Str.contains c s = true -> Str.digit c <> None \/ c = "_"%char.
Proof.
  induction len as [|len IH]; intros s acc n Hlen Hint c Hc.
  - destruct s; [discriminate | simpl in Hlen; lia].
  - destruct s as [|d s]; [discriminate|].
    simpl in Hint, Hc, Hlen.
    destruct (Ascii.eqb_spec d "_") as [->|Hd].
    + destruct s as [|e s]; [discriminate|].
      destruct (Str.digit e) as [v|] eqn:He; [|discriminate].
      simpl in Hc, Hlen.
      destruct (Ascii.eqb_spec c "_") as [Hcu|Hcu]; [right; exact Hcu|].
      destruct (Ascii.eqb_spec c e) as [Hce|Hce];
        [left; rewrite Hce; congruence|].
      simpl in Hc. refine (IH s _ n _ Hint c Hc). lia.
    + destruct (Str.digit d) as [v|] eqn:Hdig; [|discriminate].
      destruct (Ascii.eqb_spec c d) as [Hcd|Hcd];
        [left; rewrite Hcd; congruence|].
      simpl in Hc. refine (IH s _ n _ Hint c Hc). lia.
Qed.

(** A text without whitespace in which, after the first character, a
    character occurs that is neither a digit nor an underscore is not an
    integer. *)
Lemma int_none_of_char (c0 c : ascii) (rest : string) :
  none_of Str.is_space (String c0 rest) = true ->
  Str.contains c rest = true -> Str.digit c = None -> c <> "_"%char ->
  Str.int (String c0 rest) = None.
Proof.
  intros Hw Hc Hd Hu.
  assert (Hrest : forall acc, Str.int_digits acc rest = None).
  { intros acc. destruct (Str.int_digits acc rest) as [n|] eqn:E;
      [|reflexivity].
    destruct (int_digits_chars (String.length rest) rest acc n (le_n _) E c Hc);
      [congruence | contradiction]. }
  assert (Hun : Str.int_unsigned rest = None).
  { destruct rest as [|d rest']; [reflexivity|]. simpl.
    destruct (Str.digit d) as [v|] eqn:Hdd; [|reflexivity].
    destruct (Str.int_digits v rest') as [n|] eqn:E; [|reflexivity].
    simpl in Hc.
    destruct (Ascii.eqb_spec c d) as [Hcd|Hcd]; [congruence|].
    simpl in Hc.
    destruct (int_digits_chars (String.length rest') rest' v n (le_n _) E c Hc);
      [congruence | contradiction]. }
  unfold Str.int.
  rewrite (strip_word (String c0 rest)) by exact Hw.
  destruct (Ascii.eqb_spec c0 "+") as [->|H1]; [exact Hun|].
  destruct (Ascii.eqb_spec c0 "-") as [->|H2]; [rewrite Hun; reflexivity|].
  assert (Hu0 : Str.int_unsigned (String c0 rest) = None).
  { simpl. destruct (Str.digit c0); [apply Hrest | reflexivity]. }
  destruct c0 as [[] [] [] [] [] [] [] []]; try exact Hu0; congruence.
Qed.

Lemma filter_eq_range (lo hi n : Z) :
  filter (fun x => x =? n) (range_incl lo hi)
  = if (lo <=? n) && (n <=? hi) then [n] else [].
Proof.
  unfold range_incl.
  remember (Z.to_nat (hi + 1 - lo)) as len eqn:Hlen.
  assert (Hhi : hi < lo /\ len = 0%nat \/ hi = lo + Z.of_nat len - 1) by lia.
  clear Hlen. revert lo Hhi.
  induction len as [|len IH]; intros lo Hhi.
  - simpl. destruct (Z.leb_spec lo n), (Z.leb_spec n hi); simpl;
      try reflexivity; lia.
  - destruct Hhi as [[_ H]|Hhi]; [discriminate|].
    cbn [seq map filter]. rewrite <- seq_shift, map_map.
    rewrite (map_ext _ (fun k => (lo + 1) + Z.of_nat k)) by (intros; lia).
    rewrite (IH (lo + 1)) by lia.
    replace (lo + Z.of_nat 0) with lo by lia.
    destruct (Z.eqb_spec lo n) as [->|Hne].
    + destruct (Z.leb_spec (n + 1) n); [lia|]. simpl.
      destruct (Z.leb_spec n n), (Z.leb_spec n hi); simpl;
        try reflexivity; lia.
    + destruct (Z.leb_spec (lo + 1) n), (Z.leb_spec lo n),
        (Z.leb_spec n hi); simpl; try reflexivity; lia.
Qed.

Lemma int_alias_empty (attr : cron_attr) :
  In attr cron_attributes -> int_alias (snd attr) "" = None.
Proof.
  intros H. unfold cron_attributes in H. simpl in H.
  repeat (destruct H as [<-|H]; [reflexivity|]). contradiction.
Qed.

Section Terms.

Variables (t : cron_type) (lo hi : Z) (aliases : list (string * Z)).
Hypothesis attr_in : In (t, (lo, hi), aliases) cron_attributes.

(** A text with a minus sign or a slash after its first character, and no
    whitespace, names no value. *)
Lemma int_alias_compound (c0 c : ascii) (rest : string) :
  c = "-"%char \/ c = "/"%char ->
  none_of Str.is_space (String c0 rest) = true ->
  Str.contains c rest = true ->
  int_alias aliases (String c0 rest) = None.
Proof.
  intros Hc Hw Hin. unfold int_alias.
  destruct (dict_get aliases (String c0 rest)) as [v|] eqn:Hget.
  - destruct (alias_name_plain _ _ _ attr_in Hget) as [H1 H2].
    simpl in H1, H2. apply orb_false_iff in H1 as [_ H1].
    apply orb_false_iff in H2 as [_ H2].
    destruct Hc; subst; congruence.
  - apply (int_none_of_char c0 c rest Hw Hin); destruct Hc; subst;
      (reflexivity || discriminate).
Qed.

Lemma parse_bare_term (c : ascii) (rest : string) :
  Str.contains "-" (String c rest) = false ->
  Str.contains "/" (String c rest) = false ->
  parse_part (t, (lo, hi), aliases) (String c rest)
  = Ok (match int_alias aliases
                (if Ascii.eqb c "l" then rest else String c rest) with
        | Some n => if (lo <=? n) && (n <=? hi) then [n] else []
        | None => range_incl lo hi
        end,
        Ascii.eqb c "l").
Proof.
  intros Hd Hs. unfold parse_part, part_range, part_step.
  rewrite Hd, Hs. cbn [bind]. unfold part_single. cbn [Str.first bind].
  rewrite (Ascii.eqb_sym "l" c).
  destruct (Ascii.eqb c "l"); cbn [Str.tail];
    (destruct (int_alias aliases _); [rewrite filter_eq_range|]; reflexivity).
Qed.

Lemma split_joined (sep : ascii) (a b : string) :
  Str.contains sep a = false -> Str.contains sep b = false ->
  Str.split sep (a ++ String sep b) = [a; b].
Proof.
  intros Ha Hb. unfold Str.split.
  rewrite (split_by_app_sep _ a sep b (contains_none_of _ _ Ha)
             (Ascii.eqb_refl sep)).
  rewrite (split_by_word _ b (contains_none_of _ _ Hb)). reflexivity.
Qed.

Lemma contains_joined (sep : ascii) (a b : string) :
  Str.contains sep (a ++ String sep b) = true.
Proof.
  rewrite contains_app. simpl. rewrite Ascii.eqb_refl, orb_true_r.
  reflexivity.
Qed.

Lemma parse_range_term (a b : string) (x y : Z) :
  none_of Str.is_space a = true -> none_of Str.is_space b = true ->
  Str.contains "-" a = false -> Str.contains "-" b = false ->
  Str.contains "/" a = false -> Str.contains "/" b = false ->
  starts_with_l a = false ->
  int_alias aliases a = Some x -> int_alias aliases b = Some y ->
  parse_part (t, (lo, hi), aliases) (a ++ String "-" b)
  = Ok (filter (fun v => (Z.min x y <=? v) && (v <=? Z.max x y))
          (range_incl lo hi), false).
Proof.
  intros Hwa Hwb Hda Hdb Hsa Hsb Hl Ha Hb.
  destruct a as [|c0 a'];
    [pose proof (int_alias_empty _ attr_in) as He; cbn [snd] in He;
     congruence|].
  simpl in Hl.
  assert (Hnone : int_alias aliases (String c0 a' ++ String "-" b) = None).
  { apply (int_alias_compound c0 "-" (a' ++ String "-" b)); [auto| |].
    - change (none_of Str.is_space (String c0 a' ++ String "-" b) = true).
      rewrite none_of_app, Hwa. simpl. exact Hwb.
    - apply contains_joined. }
  unfold parse_part, part_range.
  rewrite contains_joined, (split_joined "-" _ _ Hda Hdb).
  cbn [unpack2 bind]. rewrite Hsb. cbn [bind Str.first]. rewrite Hl.
  rewrite Ha, Hb. cbn [or_ValueError bind].
  unfold part_step.
  replace (Str.contains "/" (String c0 a' ++ String "-" b)) with false
    by (rewrite contains_app, Hsa; simpl; rewrite Hsb; reflexivity).
  cbn [bind]. unfold part_single.
  change (Str.first (String c0 a' ++ String "-" b)) with (@Ok ascii c0).
  cbn [bind]. rewrite (Ascii.eqb_sym "l" c0), Hl, Hnone. reflexivity.
Qed.


Lemma parse_range_step_term (a b s : string) (x y step : Z) :
  none_of Str.is_space a = true -> none_of Str.is_space b = true ->
  none_of Str.is_space s = true ->
  Str.contains "-" a = false -> Str.contains "-" b = false ->
  Str.contains "-" s = false ->
  Str.contains "/" a = false -> Str.contains "/" b = false ->
  Str.contains "/" s = false ->
  starts_with_l a = false ->
  int_alias aliases a = Some x -> int_alias aliases b = Some y ->
  Str.int s = Some step -> step <> 0 ->
  parse_part (t, (lo, hi), aliases) (a ++ String "-" (b ++ String "/" s))
  = Ok (filter (fun v => v mod step =? x mod step)
          (filter (fun v => (Z.min x y <=? v) && (v <=? Z.max x y))
             (range_incl lo hi)), false).
Proof.
  intros Hwa Hwb Hws Hda Hdb Hds Hsa Hsb Hss Hl Ha Hb Hs Hstep.
  destruct a as [|c0 a'];
    [pose proof (int_alias_empty _ attr_in) as He; cbn [snd] in He;
     congruence|].
  simpl in Hl.
  set (part := String c0 a' ++ String "-" (b ++ String "/" s)).
  assert (Hword : none_of Str.is_space part = true).
  { unfold part. rewrite none_of_app, Hwa. cbn [none_of andb negb].
    change (Str.is_space "-") with false. cbn [negb andb].
    rewrite none_of_app, Hwb. simpl. exact Hws. }
  assert (Hbs_dash : Str.contains "-" (b ++ String "/" s) = false)
    by (rewrite contains_app, Hdb; simpl; exact Hds).
  assert (Hnone : int_alias aliases part = None).
  { apply (int_alias_compound c0 "-" (a' ++ String "-" (b ++ String "/" s)));
      [auto | exact Hword | apply contains_joined]. }
  assert (Hab_slash : Str.contains "/" (String c0 a' ++ String "-" b) = false)
    by (rewrite contains_app, Hsa; simpl; exact Hsb).
  assert (Hpart : part = ((String c0 a' ++ String "-" b) ++ String "/" s)%string).
  { unfold part. rewrite append_assoc. reflexivity. }
  assert (Hnone_ab : int_alias aliases (String c0 a' ++ String "-" b) = None).
  { apply (int_alias_compound c0 "-" (a' ++ String "-" b)); [auto| |].
    - change (none_of Str.is_space (String c0 a' ++ String "-" b) = true).
      rewrite none_of_app, Hwa. simpl. exact Hwb.
    - apply contains_joined. }
  unfold parse_part, part_range. fold part.
  replace (Str.contains "-" part) with true
    by (symmetry; apply contains_joined).
  unfold part at 1. rewrite (split_joined "-" _ _ Hda Hbs_dash).
  cbn [unpack2 bind]. rewrite contains_joined, (split_joined "/" _ _ Hsb Hss).
  cbn [unpack2 bind Str.first]. rewrite Hl, Ha, Hb. cbn [or_ValueError bind].
  unfold part_step.
  replace (Str.contains "/" part) with true
    by (rewrite Hpart; symmetry; apply contains_joined).
  rewrite Hpart at 1. rewrite (split_joined "/" _ _ Hab_slash Hss).
  cbn [unpack2 bind]. rewrite Hnone_ab, Hs.
  cbn [or_ValueError bind catch_ValueError].
  replace (String.eqb (String c0 a' ++ String "-" b) "*"
           || String.eqb (String c0 a' ++ String "-" b) "?") with false
    by (symmetry; apply orb_false_iff; split; apply String.eqb_neq;
        intros E; injection E as _ E; destruct a'; discriminate E).
  unfold part at 1. rewrite (split_joined "-" _ _ Hda Hbs_dash).
  cbn [unpack2 bind]. rewrite Ha. cbn [or_ValueError bind].
  unfold filter_mod. destruct (Z.eqb_spec step 0) as [E|_]; [contradiction|].
  cbn [bind]. unfold part_single.
  change (Str.first part) with (@Ok ascii c0).
  cbn [bind]. rewrite (Ascii.eqb_sym "l" c0), Hl, Hnone. reflexivity.
Qed.

End Terms.

(** X19: a term without a minus sign or a slash contributes the one value it
    names, as a number or an alias and after an optional leading l, when
    that value is in the range of the field; nothing, so that the field is
    rejected, when the value is outside the range; and the whole range when
    it names no value.  Its last flag says whether it starts with l. *)
Theorem bare_term_values (t : cron_type) (lo hi : Z)
    (aliases : list (string * Z)) (c : ascii) (rest : string) :
  In (t, (lo, hi), aliases) cron_attributes ->
  Str.contains "-" (String c rest) = false ->
  Str.contains "/" (String c rest) = false ->
  parse_part (t, (lo, hi), aliases) (String c rest)
  = Ok (match int_alias aliases
                (if Ascii.eqb c "l" then rest else String c rest) with
        | Some n => if (lo <=? n) && (n <=? hi) then [n] else []
        | None => range_incl lo hi
        end,
        Ascii.eqb c "l").
Proof. intros _. apply parse_bare_term. Qed.

(** The last day written with a number: "l28" in the day field. *)
Lemma bare_term_values_witness :
  parse_part (Day, (1, 31), []) "l28" = Ok ([28], true).
Proof.
  refine (bare_term_values Day 1 31 [] "l" "28" _ _ _).
  - simpl. auto.
  - reflexivity.
  - reflexivity.
Defined.

(** X20: each month and weekday name parses to the one value the table gives
    it, which lies in the range of its field. *)
Theorem alias_names_parse (attr : cron_attr) (name : string) (v : Z) :
  In attr cron_attributes -> In (name, v) (snd attr) ->
  parse_part attr name = Ok ([v], false).
Proof.
  intros Hattr Hname. unfold cron_attributes in Hattr. simpl in Hattr.
  repeat (destruct Hattr as [<-|Hattr];
          [simpl in Hname;
           repeat (destruct Hname as [Hname|Hname];
                   [injection Hname as <- <-; vm_compute; reflexivity|]);
           contradiction|]).
  contradiction.
Qed.

(** Sunday is 0. *)
Lemma alias_names_parse_witness :
  parse_part (nth 4 cron_attributes (Minute, (0, 0), [])) "sun"
  = Ok ([0], false).
Proof.
  apply alias_names_parse.
  - simpl. auto 10.
  - simpl. auto 10.
Defined.

(** X21: a range "a-b" whose ends name the values [x] and [y] contributes the
    values of the field's range from the smaller to the larger of the two,
    so the two ends can be written in either order. *)
Theorem range_term_values (t : cron_type) (lo hi : Z)
    (aliases : list (string * Z)) (a b : string) (x y : Z) :
  In (t, (lo, hi), aliases) cron_attributes ->
  none_of Str.is_space a = true -> none_of Str.is_space b = true ->
  Str.contains "-" a = false -> Str.contains "-" b = false ->
  Str.contains "/" a = false -> Str.contains "/" b = false ->
  starts_with_l a = false -> starts_with_l b = false ->
  int_alias aliases a = Some x -> int_alias aliases b = Some y ->
  parse_part (t, (lo, hi), aliases) (a ++ String "-" b)
  = Ok (filter (fun v => (Z.min x y <=? v) && (v <=? Z.max x y))
          (range_incl lo hi), false)
  /\ parse_part (t, (lo, hi), aliases) (b ++ String "-" a)
     = parse_part (t, (lo, hi), aliases) (a ++ String "-" b).
Proof.
  intros Hattr Hwa Hwb Hda Hdb Hsa Hsb Hla Hlb Ha Hb.
  rewrite (parse_range_term t lo hi aliases Hattr a b x y) by assumption.
  rewrite (parse_range_term t lo hi aliases Hattr b a y x) by assumption.
  rewrite (Z.min_comm y x), (Z.max_comm y x). split; reflexivity.
Qed.

(** Friday to Monday, read as Monday to Friday. *)
Lemma range_term_values_witness :
  parse_part (nth 4 cron_attributes (Minute, (0, 0), [])) "fri-mon"
  = Ok ([1; 2; 3; 4; 5], false).
Proof.
  refine (proj1 (range_term_values Isoweekday 0 6 _ "fri" "mon" 5 1
                   _ _ _ _ _ _ _ _ _ _ _)); try reflexivity.
  simpl. auto 10.
Defined.



(** X23: a stepped range "a-b/s" contributes the values between the two ends
    that are congruent to the left end modulo the step. *)
Theorem range_step_term_values (t : cron_type) (lo hi : Z)
    (aliases : list (string * Z)) (a b s : string) (x y step : Z) :
  In (t, (lo, hi), aliases) cron_attributes ->
  none_of Str.is_space a = true -> none_of Str.is_space b = true ->
  none_of Str.is_space s = true ->
  Str.contains "-" a = false -> Str.contains "-" b = false ->
  Str.contains "-" s = false ->
  Str.contains "/" a = false -> Str.contains "/" b = false ->
  Str.contains "/" s = false ->
  starts_with_l a = false ->
  int_alias aliases a = Some x -> int_alias aliases b = Some y ->
  Str.int s = Some step -> step <> 0 ->
  parse_part (t, (lo, hi), aliases) (a ++ String "-" (b ++ String "/" s))
  = Ok (filter (fun v => v mod step =? x mod step)
          (filter (fun v => (Z.min x y <=? v) && (v <=? Z.max x y))
             (range_incl lo hi)), false).
Proof. intros Hattr. apply parse_range_step_term. exact Hattr. Qed.

(** "9-17/4" in the hour field: 9, 13 and 17. *)
Lemma range_step_term_values_witness :
  parse_part (Hour, (0, 23), []) "9-17/4" = Ok ([9; 13; 17], false).
Proof.
  refine (range_step_term_values Hour 0 23 [] "9" "17" "4" 9 17 4
            _ _ _ _ _ _ _ _ _ _ _ _ _ _ _); try reflexivity.
  - simpl. auto.
  - lia.
Defined.

(** ** Upper and lower case *)

Lemma is_space_lower_char (c : ascii) :
  Str.is_space (Str.lower_char c) = Str.is_space c.
Proof. destruct c as [[] [] [] [] [] [] [] []]; reflexivity. Qed.

Lemma lower_char_idem (c : ascii) :
  Str.lower_char (Str.lower_char c) = Str.lower_char c.
Proof. destruct c as [[] [] [] [] [] [] [] []]; reflexivity. Qed.

Lemma lower_idem (s : string) : Str.lower (Str.lower s) = Str.lower s.
Proof.
  induction s as [|c s IH]; simpl; [reflexivity|].
  rewrite lower_char_idem, IH. reflexivity.
Qed.

Lemma split_by_space_lower (s : string) :
  Str.split_by Str.is_space (Str.lower s)
  = map Str.lower (Str.split_by Str.is_space s).
Proof.
  induction s as [|c s IH]; simpl; [reflexivity|].
  rewrite is_space_lower_char, IH.
  destruct (Str.is_space c); [reflexivity|].
  destruct (Str.split_by Str.is_space s); reflexivity.
Qed.

Lemma split_ws_lower (s : string) :
  Str.split_ws (Str.lower s) = map Str.lower (Str.split_ws s).
Proof.
  unfold Str.split_ws. rewrite split_by_space_lower.
  induction (Str.split_by Str.is_space s) as [|w ws IH]; [reflexivity|].
  simpl. destruct w; simpl; rewrite IH; reflexivity.
Qed.

(** The macro names are written in lower case. *)
Lemma crontab_alias_lower (s v : string) :
  dict_get crontab_aliases s = Some v -> Str.lower s = s.
Proof.
  intros H. apply dict_get_In in H. unfold crontab_aliases in H. simpl in H.
  repeat (destruct H as [H|H]; [injection H as <- _; reflexivity|]).
  contradiction.
Qed.

Lemma parse_fields_lower (attrs : list cron_attr) :
  forall cron_parts st,
    parse_fields attrs (map Str.lower cron_parts) st
    = parse_fields attrs cron_parts st.
Proof.
  induction attrs as [|attr attrs IH]; intros cron_parts st; [reflexivity|].
  destruct cron_parts as [|f cron_parts]; [reflexivity|].
  cbn [map parse_fields]. destruct st as [[values ld] lw].
  rewrite lower_idem.
  destruct (parse_parts attr _ [] ld lw) as [[[av ld'] lw']|e]; cbn [bind];
    [apply IH | reflexivity].
Qed.

(** X17: except for the macro names, a notation reads the same in any case: if
    its lower-case form is not a macro, the notation and its lower-case
    form give the same outcome for every reference. *)
Theorem case_insensitive (crontab_notation : string) (now_date : datetime) :
  dict_get crontab_aliases (Str.lower crontab_notation) = None ->
  get_next_datetime (Str.lower crontab_notation) now_date
  = get_next_datetime crontab_notation now_date.
Proof.
  intros Hlow.
  assert (Hs : dict_get crontab_aliases crontab_notation = None).
  { destruct (dict_get crontab_aliases crontab_notation) as [v|] eqn:E;
      [|reflexivity].
    rewrite (crontab_alias_lower _ _ E) in Hlow. congruence. }
  assert (Hparts : cron_parts_of (Str.lower crontab_notation)
                   = map Str.lower (cron_parts_of crontab_notation)).
  { unfold cron_parts_of. rewrite Hlow, Hs.
    rewrite !(filter_strip_words _ (split_ws_words _)).
    rewrite split_ws_lower, map_app, length_map, map_repeat. reflexivity. }
  unfold get_next_datetime, parse_crontab.
  rewrite Hparts, parse_fields_lower. reflexivity.
Qed.

(** Names in capitals. *)
Lemma case_insensitive_witness :
  get_next_datetime (Str.lower "0 12 * JAN Mon") (naive 2021 6 15 0 0 0 0)
  = get_next_datetime "0 12 * JAN Mon" (naive 2021 6 15 0 0 0 0).
Proof.
  apply case_insensitive. reflexivity.
Defined.

(** A macro name in capitals is not a macro: it is one field that names no
    value, and reads like a star. *)
Lemma macro_names_are_exact :
  parse_crontab "@DAILY" = parse_crontab "*"
  /\ parse_crontab "@daily" = parse_crontab "0 0 * * *"
  /\ get_next_datetime "@DAILY" (naive 2021 6 15 10 15 30 0)
     = Some (Ok (Some (naive 2021 6 15 10 16 0 0)))
  /\ get_next_datetime "@daily" (naive 2021 6 15 10 15 30 0)
     = Some (Ok (Some (naive 2021 6 16 0 0 0 0))).
Proof. repeat split; vm_compute; reflexivity. Qed.

(** ** A field is the union of its terms *)

Lemma parse_parts_union (attr : cron_attr) (parts : list string) :
  forall av ld lw av' ld' lw',
    parse_parts attr parts av ld lw = Ok (av', ld', lw') ->
    forall v,
      In v av' <->
      In v av \/ exists part vs last,
                   In part parts /\ parse_part attr part = Ok (vs, last)
                   /\ In v vs.
Proof.
  induction parts as [|part parts IH]; intros av ld lw av' ld' lw' H v.
  - injection H as <- _ _. split; [auto|].
    intros [Hv|(p & _ & _ & [] & _)]. exact Hv.
  - cbn [parse_parts] in H.
    destruct (parse_part attr part) as [[[|x xs] last]|e] eqn:Hp;
      cbn [bind] in H; try discriminate.
    rewrite (IH _ _ _ _ _ _ H v). rewrite in_app_iff. split.
    + intros [[Hv|Hv]|(p & vs & l & Hin & Hpp & Hv)].
      * left. exact Hv.
      * right. exists part, (x :: xs), last. split; [left; reflexivity|].
        split; [exact Hp | exact Hv].
      * right. exists p, vs, l. split; [right; exact Hin|]. auto.
    + intros [Hv|(p & vs & l & [<-|Hin] & Hpp & Hv)].
      * left. left. exact Hv.
      * left. right. rewrite Hp in Hpp. injection Hpp as <- _. exact Hv.
      * right. exists p, vs, l. auto.
Qed.

(** X18: the values accepted for a field are exactly the values contributed by
    its comma-separated terms, taken together. *)
Theorem field_is_union_of_terms (attr : cron_attr) (field : string)
    (ld lw ld' lw' : bool) (available_values : list Z) :
  parse_parts attr (Str.split "," (Str.lower field)) [] ld lw
  = Ok (available_values, ld', lw') ->
  forall v,
    In v available_values <->
    exists part vs last,
      In part (Str.split "," (Str.lower field))
      /\ parse_part attr part = Ok (vs, last) /\ In v vs.
Proof.
  intros H v. rewrite (parse_parts_union _ _ _ _ _ _ _ _ H v).
  split; [intros [[]|Hex]; exact Hex | intros Hex; right; exact Hex].
Qed.

(** The weekend and Wednesday. *)
Lemma field_is_union_of_terms_witness :
  In 3 [6; 0; 3].
Proof.
  refine (proj2 (field_is_union_of_terms
                   (nth 4 cron_attributes (Minute, (0, 0), [])) "SAT,sun,3"
                   false false false false [6; 0; 3] _ 3) _).
  - vm_compute. reflexivity.
  - exists "3", [3], false. split; [vm_compute; auto|].
    split; [vm_compute; reflexivity | left; reflexivity].
Defined.

(** ** A parsed schedule names an existing date *)

Lemma py_min_In (l : list Z) (m : Z) : py_min l = Some m -> In m l.
Proof.
  unfold py_min. destruct l as [|x xs]; [discriminate|].
  intros H. injection H as <-. apply fold_min_In.
Qed.

(** X12: for every notation that parses there are an admissible year, month and
    day of the month that form an existing date. *)
Theorem parsed_schedule_has_a_date (crontab_notation : string)
    (values : list (list Z)) (last_day last_weekday : bool) :
  parse_crontab crontab_notation = Ok (values, last_day, last_weekday) ->
  exists y m d,
    In y (nth 5 values []) /\ In m (nth 3 values [])
    /\ In d (nth 2 values []) /\ valid_date y m d = true.
Proof.
  intros Hparse.
  pose proof (parse_crontab_field_ok _ _ _ _ Hparse) as Hok.
  destruct (parsed_sets_inv _ _ _ _ Hparse)
    as (mi & h & ds & ms & wd & ys & -> & Hds & Hms & Hys).
  unfold cron_attributes in Hok.
  repeat match goal with
         | H : Forall2 _ (_ :: _) _ |- _ => inversion H; subst; clear H
         | H : Forall2 _ [] _ |- _ => inversion H; subst; clear H
         end.
  repeat match goal with
         | H : field_ok _ _ |- _ => destruct H as [H _]
         end.
  cbn [nth].
  unfold parse_crontab in Hparse.
  destruct (parse_fields cron_attributes (cron_parts_of crontab_notation)
              ([], false, false)) as [[[values' ld] lw]|e]; [|discriminate].
  cbn [bind] in Hparse. unfold check_days in Hparse.
  destruct (py_min (nth 2 values' [])) as [d0|] eqn:Hmin; [|discriminate].
  cbn [or_ValueError bind] in Hparse.
  assert (Hd0 : In d0 ds /\ (28 <= d0 ->
            exists y m, In y ys /\ In m ms /\ d0 <= monthrange y m)).
  { destruct (28 <=? d0) eqn:E28.
    - destruct (existsb _ (nth 5 values' [])) eqn:Ex; [|discriminate].
      injection Hparse as -> _ _. cbn [nth] in *.
      split; [apply py_min_In; exact Hmin|]. intros _.
      apply existsb_exists in Ex as (y & Hy & Ex).
      apply existsb_exists in Ex as (m & Hm & Hlen).
      apply Z.leb_le in Hlen. eauto.
    - injection Hparse as -> _ _. cbn [nth] in *.
      split; [apply py_min_In; exact Hmin|]. apply Z.leb_gt in E28. lia. }
  destruct Hd0 as [Hin Hbig].
  destruct (Z_lt_le_dec d0 28) as [Hsmall|Hge].
  - destruct ys as [|y ys']; [congruence|].
    destruct ms as [|m ms']; [congruence|].
    exists y, m, d0. split; [left; reflexivity|].
    split; [left; reflexivity|]. split; [exact Hin|].
    apply valid_date_iff.
    pose proof (Hys y (or_introl eq_refl)).
    pose proof (Hms m (or_introl eq_refl)) as Hm.
    pose proof (monthrange_bounds y m Hm). pose proof (Hds d0 Hin). lia.
  - destruct (Hbig Hge) as (y & m & Hy & Hm & Hlen).
    exists y, m, d0. repeat split; try assumption.
    apply valid_date_iff.
    pose proof (Hys y Hy). pose proof (Hms m Hm). pose proof (Hds d0 Hin).
    lia.
Qed.

(** The 29th of February: the year 1972 has one. *)
Lemma parsed_schedule_has_a_date_witness :
  exists y m d,
    In y (range_incl 1970 2099) /\ In m [2] /\ In d [29]
    /\ valid_date y m d = true.
Proof.
  refine (parsed_schedule_has_a_date "0 0 29 2 *"
            [[0]; [0]; [29]; [2]; range_incl 0 6; range_incl 1970 2099]
            false false _).
  vm_compute. reflexivity.
Defined.

(** ** What the call reads of the reference *)

Section SameMinute.

Variable values : list (list Z).
Variables last_day last_weekday : bool.

Lemma calculate_date_same_minute (d d' : datetime) :
  year d = year d' -> month d = month d' -> day d = day d' ->
  hour d = hour d' -> minute d = minute d' -> tzinfo d = tzinfo d' ->
  calculate_date values last_day last_weekday (Some d)
  = calculate_date values last_day last_weekday (Some d').
Proof.
  destruct d as [y m dd h mi s us tz], d' as [y' m' dd' h' mi' s' us' tz'].
  cbn [year month day hour minute tzinfo].
  intros <- <- <- <- <- <-.
  unfold calculate_date, fuel_of. cbn [year tzinfo retry_loop].
  assert (Ha : forall z,
             attempt values last_day last_weekday z
               (mk_datetime y m dd h mi s us tz)
             = attempt values last_day last_weekday z
                 (mk_datetime y m dd h mi s' us' tz)).
  { intros z. unfold attempt, cron_attributes.
    cbn [carry_fields fst cron_type_eqb getattr minute].
    unfold rebuild at 1 3. cbn [cron_type_eqb getattr year month day hour].
    reflexivity. }
  rewrite Ha. reflexivity.
Qed.

End SameMinute.

(** X5: two references with the same year, month, day, hour, minute and zone,
    and whose seconds are both 0 or both not 0, give the same outcome: the
    call reads the seconds only to compare them with 0 and never reads the
    microseconds. *)
Theorem reference_read_to_the_minute (crontab_notation : string)
    (now_date now_date' : datetime) :
  year now_date = year now_date' -> month now_date = month now_date' ->
  day now_date = day now_date' -> hour now_date = hour now_date' ->
  minute now_date = minute now_date' -> tzinfo now_date = tzinfo now_date' ->
  (second now_date =? 0) = (second now_date' =? 0) ->
  get_next_datetime crontab_notation now_date
  = get_next_datetime crontab_notation now_date'.
Proof.
  intros Hy Hm Hd Hh Hmi Htz Hs.
  unfold get_next_datetime.
  destruct (parse_crontab crontab_notation) as [[[values ld] lw]|e];
    [|reflexivity].
  unfold seeds. rewrite <- Hy, <- Hm, <- Hd, <- Hh, <- Hmi, <- Hs, <- Htz.
  destruct (seed_if (minute now_date <? 60 - 1) _) as [o1|]; [|reflexivity].
  destruct (seed_if (hour now_date <? 24 - 1) _) as [o2|]; [|reflexivity].
  destruct (seed_if (day now_date <? _) _) as [o3|]; [|reflexivity].
  destruct (seed_if (month now_date <? 12 - 1) _) as [o4|]; [|reflexivity].
  cbn [bind].
  destruct (new_datetime (year now_date + 1) 1 1 0 0) as [s5|]; [|reflexivity].
  cbn [or_ValueError bind].
  destruct (second now_date =? 0); [|reflexivity].
  cbn [somes calculate_all].
  destruct (tzinfo now_date) as [z|] eqn:Ez.
  - unfold localize. rewrite Ez, <- Htz. reflexivity.
  - rewrite (calculate_date_same_minute values ld lw now_date now_date')
      by (try assumption; congruence).
    reflexivity.
Qed.

(** Half a second past the minute and a microsecond before the next. *)
Lemma reference_read_to_the_minute_witness :
  get_next_datetime "*/5 * * * *" (naive 2021 6 15 10 15 0 500000)
  = get_next_datetime "*/5 * * * *" (naive 2021 6 15 10 15 0 0).
Proof.
  apply reference_read_to_the_minute; reflexivity.
Defined.

(** The instant returned for a Monday-noon schedule, asked about itself. *)
Lemma occurrence_is_its_own_next_witness :
  get_next_datetime "0 12 * * mon" (naive 2021 6 21 12 0 0 0)
  = Some (Ok (Some (naive 2021 6 21 12 0 0 0))).
Proof.
  refine (proj2 (occurrence_is_its_own_next "0 12 * * mon"
                   [[0]; [12]; range_incl 1 31; range_incl 1 12; [1];
                    range_incl 1970 2099] false false _)
            (naive 2021 6 15 10 15 30 0) (naive 2021 6 21 12 0 0 0) _ _).
  - vm_compute. reflexivity.
  - reflexivity.
  - vm_compute. reflexivity.
Defined.
